(** * go-api-basic: the identity context carrier and the authorization engine

    A shallow embedding of package [auth] (domain/auth/auth.go): the
    request-scoped carriers for the access token and the realm, and
    [CasbinAuthorizer.Authorize].  The packages that [auth] imports are
    embedded as far as [auth] calls into them, one module per package, so
    that the definitions below read like the Go text. *)

From Stdlib Require Import String Ascii List Bool Arith Lia.
Import ListNotations.
Local Open Scope list_scope.
Local Open Scope string_scope.

(** ** Outcomes and traced computations

    A Go call either returns or panics.  [Outcome] keeps the two apart, and
    [Eff] adds the trace of the calls made on the collaborators that the
    package does not own (the policy store and the logger). *)

Inductive Outcome (A : Type) : Type :=
| Returned (a : A)
| Panicked (reason : string).
Arguments Returned {A} a.
Arguments Panicked {A} reason.

Definition nilDereference : string :=
  "invalid memory address or nil pointer dereference".

Definition Outcome_bind {A B : Type} (o : Outcome A) (k : A -> Outcome B)
  : Outcome B :=
  match o with
  | Returned a => k a
  | Panicked why => Panicked why
  end.

(** ** Package zerolog *)
Module zerolog.

Inductive Level : Type :=
| TraceLevel | DebugLevel | InfoLevel | WarnLevel | ErrorLevel
| FatalLevel | PanicLevel | NoLevel | Disabled.

(** A logger value: its minimum level and the fields of its context. *)
Record Logger : Type := mkLogger {
  level : Level;
  context : list (string * string)
}.

End zerolog.

(** What the package asks of its collaborators, in call order. *)
Inductive Event : Type :=
| EvEnforce (sub obj act : string)
| EvLog (lgr : zerolog.Logger) (lvl : zerolog.Level)
        (fields : list (string * string)) (msg : string).

Definition Eff (A : Type) : Type := (list Event * Outcome A)%type.

Definition ret {A : Type} (a : A) : Eff A := ([], Returned a).

Definition bind {A B : Type} (m : Eff A) (k : A -> Eff B) : Eff B :=
  match m with
  | (t, Returned a) => let (t', o) := k a in ((t ++ t')%list, o)
  | (t, Panicked why) => (t, Panicked why)
  end.

Definition emit (e : Event) : Eff unit := ([e], Returned tt).

Definition panic {A : Type} (why : string) : Eff A := ([], Panicked why).

Declare Scope eff_scope.
Delimit Scope eff_scope with eff.
Notation "x <- m ;; k" := (bind m (fun x => k))
  (at level 100, m at next level, right associativity) : eff_scope.
Notation "m ;;; k" := (bind m (fun _ => k))
  (at level 100, right associativity) : eff_scope.

Definition trace {A : Type} (m : Eff A) : list Event := fst m.
Definition outcome {A : Type} (m : Eff A) : Outcome A := snd m.

(** The policy-store queries of a trace, in order. *)
Fixpoint queries (t : list Event) : list (string * string * string) :=
  match t with
  | [] => []
  | EvEnforce s o a :: t' => (s, o, a) :: queries t'
  | EvLog _ _ _ _ :: t' => queries t'
  end.

(** ** Package strings *)
Module strings.

(** [HasPrefix(s, prefix)]:
    [len(s) >= len(prefix) && s[0:len(prefix)] == prefix]. *)
Definition HasPrefix (s prefix : string) : bool :=
  Nat.leb (String.length prefix) (String.length s)
  && String.eqb (substring 0 (String.length prefix) s) prefix.

(** [Contains(s, substr)]: [substr] occurs somewhere in [s]. *)
Fixpoint Contains (s substr : string) : bool :=
  HasPrefix s substr
  || match s with
     | EmptyString => false
     | String _ s' => Contains s' substr
     end.

End strings.

(** ** Package fmt *)
Module fmt.

(** Operands left over when the format is used up, as [Sprintf] reports
    them. *)
Fixpoint operandList (args : list string) : string :=
  match args with
  | [] => EmptyString
  | [a] => "string=" ++ a
  | a :: rest => "string=" ++ a ++ ", " ++ operandList rest
  end.

Definition extra (args : list string) : string :=
  match args with
  | [] => EmptyString
  | _ :: _ => "%!(EXTRA " ++ operandList args ++ ")"
  end.

(** [Sprintf] on string operands, for formats whose verbs are [%s] and the
    literal [%%], the only ones this package writes.  A [%s] without an
    operand and a [%] at the end print Go's markers; any other character
    after [%] is outside this model and is copied through. *)
Fixpoint Sprintf (format : string) (args : list string) : string :=
  match format with
  | EmptyString => extra args
  | String c rest =>
      if Ascii.eqb c "%" then
        match rest with
        | EmptyString => "%!(NOVERB)" ++ extra args
        | String v rest' =>
            if Ascii.eqb v "s" then
              match args with
              | a :: args' => a ++ Sprintf rest' args'
              | [] => "%!s(MISSING)" ++ Sprintf rest' []
              end
            else if Ascii.eqb v "%" then String "%" (Sprintf rest' args)
            else String c (String v (Sprintf rest' args))
        end
      else String c (Sprintf rest args)
  end.

End fmt.

(** [lgr.<Level>().Str(k1, v1)...Msgf(format, args...)]: one call on the
    logger, recorded with its level, its fields and the formatted message.
    Whether the sink keeps the entry is the logger's business. *)
Definition Msgf (lgr : zerolog.Logger) (lvl : zerolog.Level)
  (fields : list (string * string)) (format : string) (args : list string)
  : Eff unit :=
  emit (EvLog lgr lvl fields (fmt.Sprintf format args)).

(** ** Package errs

    Modelled from the spec: package [errs] (domain/errs) is imported by
    auth.go but its source is not part of the files at hand.  The spec's
    structured error is a kind drawn from a closed set, a displayable
    message, an optional wrapped cause and optional diagnostic parameters;
    building one from an existing error classifies it and keeps the cause. *)
Module errs.

Inductive Kind : Type :=
| Invalid | Unauthenticated | Unauthorized | NotFound | Exist
| Internal | Unanticipated.

(** Non-nil values of Go's [error] interface that this package builds:
    the plain error of [errors.New] and the structured error. *)
#[warnings="-register-all"]
Inductive Error : Type :=
| fundamental (msg : string)
| StructuredError (kind : Kind) (message : string)
                  (cause : option Error) (params : list (string * string)).

(** [err.Error()]. *)
Definition Message (e : Error) : string :=
  match e with
  | fundamental msg => msg
  | StructuredError _ message _ _ => message
  end.

(** The kind callers branch on; an error no layer classified is
    [Unanticipated]. *)
Definition KindOf (e : Error) : Kind :=
  match e with
  | fundamental _ => Unanticipated
  | StructuredError kind _ _ _ => kind
  end.

Definition NewUnauthorizedError (err : Error) : Error :=
  StructuredError Unauthorized (Message err) (Some err) [].

(** [errs.E(kind, err)]: [err] classified as [kind], kept as the cause. *)
Definition E (kind : Kind) (err : Error) : Error :=
  StructuredError kind (Message err) (Some err) [].

End errs.

(** Go's [error]: [nil] or a non-nil error value. *)
Definition error : Type := option errs.Error.

(** ** Package errors (github.com/pkg/errors) *)
Module errors.

(** [errors.New(message)]; the stack it records is left out. *)
Definition New (message : string) : errs.Error := errs.fundamental message.

End errors.

(** ** Package user

    Modelled from the spec: [user.User] (domain/user) is declared outside
    the files at hand.  The subject is the authenticated principal with a
    stable identifier, its e-mail address, which is the only field that
    package [auth] reads. *)
Module user.

Record User : Type := mkUser {
  Email : string
}.

End user.

(** ** Package casbin *)
Module casbin.

(** The policy store: one operation, [Enforce(sub, obj, act)], a function
    of its three operands and of the policy set the store has loaded. *)
Record Enforcer : Type := mkEnforcer {
  decide : string -> string -> string -> bool
}.

(** [e.Enforce(sub, obj, act)] on [e *Enforcer]: the method reads the
    enforcer, so a nil receiver panics; otherwise the store is queried. *)
Definition Enforce (e : option Enforcer) (sub obj act : string) : Eff bool :=
  match e with
  | None => panic nilDereference
  | Some store =>
      (emit (EvEnforce sub obj act) ;;; ret (decide store sub obj act))%eff
  end.

End casbin.

(** ** The values of [interface{}] that travel through a context *)

(** [type WWWAuthenticateRealm string] and [type contextKey string]: named
    types over [string]; the constructors of [any] below keep their dynamic
    types apart from plain [string]. *)
Definition WWWAuthenticateRealm : Type := string.
Definition contextKey : Type := string.

Record AccessToken : Type := mkAccessToken {
  Token : string;
  TokenType : string
}.

(** A value of [interface{}]: [nil], or a dynamic type with its value.
    [any_other] stands for the values of every type declared elsewhere,
    named by their type. *)
Inductive any : Type :=
| any_nil
| any_string (s : string)
| any_contextKey (k : contextKey)
| any_Realm (realm : WWWAuthenticateRealm)
| any_AccessToken (tok : AccessToken)
| any_other (type_name : string) (repr : string).

Definition AccessToken_eq_dec (x y : AccessToken) : {x = y} + {x <> y}.
Proof. decide equality; apply string_dec. Defined.

(** Go's [==] on interface values: same dynamic type and equal values. *)
Definition any_eq_dec (x y : any) : {x = y} + {x <> y}.
Proof.
  decide equality; try apply string_dec; apply AccessToken_eq_dec.
Defined.

(** ** Package context *)
Module context.

(** A (non-nil) [context.Context]: the empty root, a value node over its
    parent, or a cancellation node, which holds no value of its own. *)
Inductive Context : Type :=
| Background
| valueCtx (parent : Context) (key val : any)
| cancelCtx (parent : Context).

(** [ctx.Value(key)]: the value of the nearest node that carries [key],
    [nil] when no node does. *)
Fixpoint Value (ctx : Context) (key : any) : any :=
  match ctx with
  | Background => any_nil
  | valueCtx parent k v => if any_eq_dec k key then v else Value parent key
  | cancelCtx parent => Value parent key
  end.

Definition WithValue (parent : Context) (key val : any) : Context :=
  valueCtx parent key val.

(** Whether some node of the chain carries [key]. *)
Fixpoint carries (ctx : Context) (key : any) : bool :=
  match ctx with
  | Background => false
  | valueCtx parent k _ =>
      if any_eq_dec k key then true else carries parent key
  | cancelCtx parent => carries parent key
  end.

End context.

(** ** Package net/http *)
Module http.

Definition MethodGet : string := "GET".

(** Of [http.Request] the package reads the context only; the field is
    [nil] in a request built as a bare struct. *)
Record Request : Type := mkRequest {
  ctx : option context.Context
}.

(** [(r *Request).Context()]: reads [r.ctx], so a nil [r] panics. *)
Definition Context (r : option Request) : Outcome context.Context :=
  match r with
  | None => Panicked nilDereference
  | Some req =>
      match ctx req with
      | Some c => Returned c
      | None => Returned context.Background
      end
  end.

(** [http.NewRequest] gives the request the background context. *)
Definition NewRequest : Request := mkRequest (Some context.Background).

Definition WithContext (r : Request) (c : context.Context) : Request :=
  mkRequest (Some c).

End http.

(** ** Package oauth2 (golang.org/x/oauth2) *)
Module oauth2.

(** [oauth2.Token], with the fields a caller can set: the access token and
    its type, the refresh token and the expiry ([None] is the zero time,
    which the package reads as "does not expire"). *)
Record Token : Type := mkToken {
  AccessToken : string;
  TokenType : string;
  RefreshToken : string;
  Expiry : option nat
}.

End oauth2.

(** ** Package auth (domain/auth/auth.go) *)
Module auth.

Definition DefaultRealm : WWWAuthenticateRealm := "go-api-basic".

Definition BearerTokenType : string := "Bearer".

Definition contextKeyRealm : contextKey := "realm".

Definition contextKeyAccessToken : contextKey := "access-token".

(** The type assertion [v.(WWWAuthenticateRealm)] in its two-result form:
    the zero value and [false] when [v] has another dynamic type. *)
Definition assert_Realm (v : any) : WWWAuthenticateRealm * bool :=
  match v with
  | any_Realm realm => (realm, true)
  | _ => (EmptyString, false)
  end.

(** The type assertion [v.(AccessToken)] in its two-result form. *)
Definition assert_AccessToken (v : any) : AccessToken * bool :=
  match v with
  | any_AccessToken tok => (tok, true)
  | _ => (mkAccessToken EmptyString EmptyString, false)
  end.

Definition RealmFromCtx (ctx : context.Context)
  : WWWAuthenticateRealm * bool :=
  assert_Realm (context.Value ctx (any_contextKey contextKeyRealm)).

Definition RealmFromRequest (r : option http.Request)
  : Outcome (WWWAuthenticateRealm * bool) :=
  match r with
  | None => Returned (EmptyString, false)
  | Some _ => Outcome_bind (http.Context r) (fun c => Returned (RealmFromCtx c))
  end.

Definition CtxWithRealm (ctx : context.Context) (realm : WWWAuthenticateRealm)
  : context.Context :=
  context.WithValue ctx (any_contextKey contextKeyRealm) (any_Realm realm).

Definition NewAccessToken (token tokenType : string) : AccessToken :=
  mkAccessToken token tokenType.

(** [NewGoogleOauth2Token]: the address of a fresh token, never nil; the
    fields the composite literal does not name keep their zero values. *)
Definition NewGoogleOauth2Token (tok : AccessToken) : option oauth2.Token :=
  Some (oauth2.mkToken (Token tok) (TokenType tok) EmptyString None).

Definition AccessTokenFromCtx (ctx : context.Context) : AccessToken * bool :=
  assert_AccessToken
    (context.Value ctx (any_contextKey contextKeyAccessToken)).

Definition AccessTokenFromRequest (r : option http.Request)
  : Outcome (AccessToken * bool) :=
  match r with
  | None => Returned (mkAccessToken EmptyString EmptyString, false)
  | Some _ =>
      Outcome_bind (http.Context r) (fun c => Returned (AccessTokenFromCtx c))
  end.

Definition CtxWithAccessToken (ctx : context.Context) (tok : AccessToken)
  : context.Context :=
  context.WithValue ctx (any_contextKey contextKeyAccessToken)
    (any_AccessToken tok).

(** [Enforcer] is a pointer: [None] is the nil enforcer. *)
Record CasbinAuthorizer : Type := mkCasbinAuthorizer {
  Enforcer : option casbin.Enforcer
}.

Definition moviesPath : string := "/api/v1/movies".

Definition loggerPath : string := "/api/v1/logger".

(** [Authorize]: the first [if] chain either rebinds [obj] to the prefix it
    matched ([inl]) or returns early ([inr]); [act] is rebound next, the
    store is asked, and the answer is logged and returned. *)
Definition Authorize (a : CasbinAuthorizer) (lgr : zerolog.Logger)
  (sub : user.User) (obj act : string) : Eff error :=
  match
    (if strings.HasPrefix obj moviesPath then inl moviesPath
     else if strings.HasPrefix obj loggerPath then inl loggerPath
     else inr (errs.NewUnauthorizedError (errors.New
            (fmt.Sprintf "user %s does not have %s permission for %s"
               [user.Email sub; act; obj]))))
  with
  | inr err => ret (Some err)
  | inl obj =>
      let act := if String.eqb act http.MethodGet then "read" else "write" in
      (authorized <- casbin.Enforce (Enforcer a) (user.Email sub) obj act ;;
       if authorized : bool then
         (Msgf lgr zerolog.DebugLevel
            [("sub", user.Email sub); ("obj", obj); ("act", act)]
            "Authorized (sub: %s, obj: %s, act: %s)"
            [user.Email sub; obj; act] ;;;
          ret None)
       else
         (Msgf lgr zerolog.InfoLevel
            [("sub", user.Email sub); ("obj", obj); ("act", act)]
            "Unauthorized (sub: %s, obj: %s, act: %s)"
            [user.Email sub; obj; act] ;;;
          ret (Some (errs.NewUnauthorizedError (errors.New
                 (fmt.Sprintf "user %s does not have %s permission for %s"
                    [user.Email sub; act; obj]))))))%eff
  end.

Record AccessControlList : Type := mkAccessControlList {
  Subject : string;
  Object : string;
  Action : string
}.

End auth.

(** ** The canonical forms, in the spec's words

    Section 4.3 of the design: the object path is matched against a fixed,
    ordered list of known prefixes and the first match is the canonical
    object; the read verb maps to "read" and every other verb to "write".
    These two definitions follow that wording; the theorems compare what
    [auth.Authorize] asks of the store with them. *)

Definition knownPrefixes : list string := [auth.moviesPath; auth.loggerPath].

Definition canonicalObject (objectPath : string) : option string :=
  find (fun p => strings.HasPrefix objectPath p) knownPrefixes.

Definition canonicalAction (verb : string) : string :=
  if String.eqb verb "GET" then "read" else "write".

(** The decision a caller reads off the returned error. *)
Inductive Decision : Type :=
| Allow
| Deny (kind : errs.Kind).

Definition decision (e : error) : Decision :=
  match e with
  | None => Allow
  | Some err => Deny (errs.KindOf err)
  end.

(** The text of the denial, as [Sprintf] lays it out. *)
Definition denialText (email act obj : string) : string :=
  "user " ++ email ++ " does not have " ++ act ++ " permission for " ++ obj.

(** An authorizer over a loaded policy store. *)
Definition authorizerOf (store : casbin.Enforcer) : auth.CasbinAuthorizer :=
  auth.mkCasbinAuthorizer (Some store).

(** ** Sample values: the scenarios of the design *)

Definition alice : user.User := user.mkUser "alice@example.com".

(** A store whose only rule lets everyone read. *)
Definition readOnlyStore : casbin.Enforcer :=
  casbin.mkEnforcer (fun _ _ act => String.eqb act "read").

(** The same rule, written the other way round. *)
Definition readOnlyStore' : casbin.Enforcer :=
  casbin.mkEnforcer (fun _ _ act => negb (negb (String.eqb "read" act))).

Definition debugLogger : zerolog.Logger :=
  zerolog.mkLogger zerolog.DebugLevel [].

Definition quietLogger : zerolog.Logger :=
  zerolog.mkLogger zerolog.ErrorLevel [("service", "go-api-basic")].

Definition bearer (token : string) : AccessToken :=
  auth.NewAccessToken token auth.BearerTokenType.

(** A context that carries a realm and a value of another package, but no
    access token. *)
Definition ctxWithoutToken : context.Context :=
  context.cancelCtx
    (context.WithValue
       (auth.CtxWithRealm context.Background "movies-realm")
       (any_other "hlog.idKey" "access-token") (any_string "abcdef123")).

(** A context that carries an access token, and a plain string under a
    plain string key ["realm"], but no realm. *)
Definition ctxWithoutRealm : context.Context :=
  context.WithValue
    (auth.CtxWithAccessToken context.Background (bearer "abcdef123"))
    (any_string "realm") (any_string "go-api-basic").

(** The third request of TestFromRequest: a token attached with an empty
    token string. *)
Definition ctxEmptyToken : context.Context :=
  auth.CtxWithAccessToken context.Background (bearer "").

(** ** What a denial message names *)

(** The message is the denial text over the canonical object and action,
    and names the subject and both of them. *)
Definition namesCanonical (sub : user.User) (obj act : string)
  (err : errs.Error) : Prop :=
  exists p,
    canonicalObject obj = Some p
    /\ errs.Message err
       = denialText (user.Email sub) (canonicalAction act) p
    /\ strings.Contains (errs.Message err) (user.Email sub) = true
    /\ strings.Contains (errs.Message err) p = true
    /\ strings.Contains (errs.Message err) (canonicalAction act) = true.

(** The message is the denial text over the verb and the path as they were
    passed, and names the subject and both of them. *)
Definition namesRaw (sub : user.User) (obj act : string)
  (err : errs.Error) : Prop :=
  canonicalObject obj = None
  /\ errs.Message err = denialText (user.Email sub) act obj
  /\ strings.Contains (errs.Message err) (user.Email sub) = true
  /\ strings.Contains (errs.Message err) obj = true
  /\ strings.Contains (errs.Message err) act = true.

(** ** Package app (app/handlers.go)

    The handlers sit between collaborators that are declared outside the
    files at hand: the services of the server, [user.FromRequest],
    [hlog.FromRequest], [mux.Vars], the JSON decoder and encoder,
    [decoderErr] and [errs.HTTPErrorResponse].  Their types and their
    results are taken as parameters, bundled in records; what is embedded
    here is what each handler does with them, in order. *)
Module app.

(** The request and response types of package [service]. *)
Record Types : Type := mkTypes {
  CreateMovieRequest : Type;
  UpdateFields : Type;
  LoggerRequest : Type;
  CreateMovieResponse : Type;
  UpdateMovieResponse : Type;
  DeleteMovieResponse : Type;
  FindMovieResponse : Type;
  FindAllMoviesResponse : Type;
  LoggerResponse : Type;
  PingResponse : Type
}.

(** [service.UpdateMovieRequest]: the external ID, which the handler
    assigns, and the fields it leaves alone. *)
Record UpdateMovieRequest (T : Types) : Type := mkUpdateMovieRequest {
  ExternalID : string;
  fields : UpdateFields T
}.
Arguments mkUpdateMovieRequest {T} ExternalID fields.
Arguments ExternalID {T} u.
Arguments fields {T} u.

(** What the handlers call that is not a service.  A decoder gives the
    request-body pointer as [Decode(&rb)] leaves it ([None] is nil) and
    the error; the encoder gives what it wrote and the error. *)
Record Env (T : Types) : Type := mkEnv {
  userFromRequest : http.Request -> user.User * error;
  hlogFromRequest : http.Request -> zerolog.Logger;
  muxVars : http.Request -> list (string * string);
  decodeCreate : http.Request -> option (CreateMovieRequest T) * error;
  decodeUpdate : http.Request -> option (UpdateMovieRequest T) * error;
  decodeLogger : http.Request -> option (LoggerRequest T) * error;
  decoderErr : error -> error;
  encode : forall A : Type, A -> string * error
}.
Arguments userFromRequest {T} e.
Arguments hlogFromRequest {T} e.
Arguments muxVars {T} e.
Arguments decodeCreate {T} e.
Arguments decodeUpdate {T} e.
Arguments decodeLogger {T} e.
Arguments decoderErr {T} e.
Arguments encode {T} e A.

(** [Server]: the services the handlers use, one field per method. *)
Record Server (T : Types) : Type := mkServer {
  Create : context.Context -> option (CreateMovieRequest T) -> user.User
           -> CreateMovieResponse T * error;
  Update : context.Context -> option (UpdateMovieRequest T) -> user.User
           -> UpdateMovieResponse T * error;
  Delete : context.Context -> string -> DeleteMovieResponse T * error;
  FindMovieByID : context.Context -> string -> FindMovieResponse T * error;
  FindAllMovies : context.Context -> FindAllMoviesResponse T * error;
  LoggerRead : LoggerResponse T;
  LoggerUpdate : option (LoggerRequest T) -> LoggerResponse T * error;
  Ping : context.Context -> zerolog.Logger -> PingResponse T
}.
Arguments Create {T} s.
Arguments Update {T} s.
Arguments Delete {T} s.
Arguments FindMovieByID {T} s.
Arguments FindAllMovies {T} s.
Arguments LoggerRead {T} s.
Arguments LoggerUpdate {T} s.
Arguments Ping {T} s.

Inductive Service : Type :=
| CreateMovieService | UpdateMovieService | DeleteMovieService
| FindMovieByIDService | FindAllMoviesService
| LoggerReadService | LoggerUpdateService | PingService.

(** What a handler does to the world, in order. *)
Inductive Effect : Type :=
| FxDecode
| FxClose
| FxCall (svc : Service)
| FxEncode (written : string)
| FxErrorResponse (lgr : zerolog.Logger) (err : errs.Error).

Definition Run (A : Type) : Type := (list Effect * Outcome A)%type.

Definition done {A : Type} (a : A) : Run A := ([], Returned a).

Definition andThen {A B : Type} (m : Run A) (k : A -> Run B) : Run B :=
  match m with
  | (t, Returned a) => let (t', o) := k a in ((t ++ t')%list, o)
  | (t, Panicked why) => (t, Panicked why)
  end.

Definition effect {A : Type} (fx : Effect) (a : A) : Run A :=
  ([fx], Returned a).

Definition lift {A : Type} (o : Outcome A) : Run A := ([], o).

(** [defer f()] followed by [body]: the effect of [f] comes last, also when
    [body] panics. *)
Definition deferring {A : Type} (fx : Effect) (body : Run A) : Run A :=
  let (t, o) := body in ((t ++ [fx])%list, o).

Declare Scope run_scope.
Delimit Scope run_scope with run.
Notation "x <- m ;; k" := (andThen m (fun x => k))
  (at level 100, m at next level, right associativity) : run_scope.

(** [m[key]] on a [map[string]string]: the zero value for a missing key. *)
Fixpoint mapIndex (m : list (string * string)) (key : string) : string :=
  match m with
  | [] => EmptyString
  | (k, v) :: m' => if String.eqb k key then v else mapIndex m' key
  end.

(** [errs.HTTPErrorResponse(w, logger, err)]. *)
Definition HTTPErrorResponse (lgr : zerolog.Logger) (err : errs.Error)
  : Run unit :=
  effect (FxErrorResponse lgr err) tt.

(** The last step of every handler: encode the response; an encoder error
    is answered as an Internal error. *)
Definition encodeResponse {T : Types} (e : Env T) (lgr : zerolog.Logger)
  {A : Type} (response : A) : Run unit :=
  let (written, err) := encode e A response in
  (_ <- effect (FxEncode written) tt ;;
   match err with
   | Some err => HTTPErrorResponse lgr (errs.E errs.Internal err)
   | None => done tt
   end)%run.

Section Handlers.

Context {T : Types}.
Variables (e : Env T) (s : Server T) (r : http.Request).

Definition handleMovieCreate : Run unit :=
  let logger := hlogFromRequest e r in
  match userFromRequest e r with
  | (_, Some err) => HTTPErrorResponse logger err
  | (u, None) =>
      let (rb, err) := decodeCreate e r in
      (_ <- effect FxDecode tt ;;
       deferring FxClose
         match decoderErr e err with
         | Some err => HTTPErrorResponse logger err
         | None =>
             (ctx <- lift (http.Context (Some r)) ;;
              _ <- effect (FxCall CreateMovieService) tt ;;
              match Create s ctx rb u with
              | (_, Some err) => HTTPErrorResponse logger err
              | (response, None) => encodeResponse e logger response
              end)
         end)%run
  end.

Definition handleMovieUpdate : Run unit :=
  let logger := hlogFromRequest e r in
  match userFromRequest e r with
  | (_, Some err) => HTTPErrorResponse logger err
  | (u, None) =>
      let extlid := mapIndex (muxVars e r) "extlID" in
      let (rb, err) := decodeUpdate e r in
      (_ <- effect FxDecode tt ;;
       deferring FxClose
         match decoderErr e err with
         | Some err => HTTPErrorResponse logger err
         | None =>
             (rb <- lift match rb with
                         | None => Panicked nilDereference
                         | Some b =>
                             Returned
                               (Some (mkUpdateMovieRequest extlid (fields b)))
                         end ;;
              ctx <- lift (http.Context (Some r)) ;;
              _ <- effect (FxCall UpdateMovieService) tt ;;
              match Update s ctx rb u with
              | (_, Some err) => HTTPErrorResponse logger err
              | (response, None) => encodeResponse e logger response
              end)
         end)%run
  end.

Definition handleMovieDelete : Run unit :=
  let logger := hlogFromRequest e r in
  let extlID := mapIndex (muxVars e r) "extlID" in
  (ctx <- lift (http.Context (Some r)) ;;
   _ <- effect (FxCall DeleteMovieService) tt ;;
   match Delete s ctx extlID with
   | (_, Some err) => HTTPErrorResponse logger err
   | (response, None) => encodeResponse e logger response
   end)%run.

Definition handleFindMovieByID : Run unit :=
  let logger := hlogFromRequest e r in
  let extlID := mapIndex (muxVars e r) "extlID" in
  (ctx <- lift (http.Context (Some r)) ;;
   _ <- effect (FxCall FindMovieByIDService) tt ;;
   match FindMovieByID s ctx extlID with
   | (_, Some err) => HTTPErrorResponse logger err
   | (response, None) => encodeResponse e logger response
   end)%run.

Definition handleFindAllMovies : Run unit :=
  let logger := hlogFromRequest e r in
  (ctx <- lift (http.Context (Some r)) ;;
   _ <- effect (FxCall FindAllMoviesService) tt ;;
   match FindAllMovies s ctx with
   | (_, Some err) => HTTPErrorResponse logger err
   | (response, None) => encodeResponse e logger response
   end)%run.

Definition handleLoggerRead : Run unit :=
  let lgr := hlogFromRequest e r in
  (_ <- effect (FxCall LoggerReadService) tt ;;
   encodeResponse e lgr (LoggerRead s))%run.

Definition handleLoggerUpdate : Run unit :=
  let lgr := hlogFromRequest e r in
  let (rb, err) := decodeLogger e r in
  (_ <- effect FxDecode tt ;;
   deferring FxClose
     match decoderErr e err with
     | Some err => HTTPErrorResponse lgr err
     | None =>
         (_ <- effect (FxCall LoggerUpdateService) tt ;;
          match LoggerUpdate s rb with
          | (_, Some err) => HTTPErrorResponse lgr err
          | (response, None) => encodeResponse e lgr response
          end)
     end)%run.

Definition handlePing : Run unit :=
  let logger := hlogFromRequest e r in
  (ctx <- lift (http.Context (Some r)) ;;
   _ <- effect (FxCall PingService) tt ;;
   encodeResponse e logger (Ping s ctx logger))%run.

End Handlers.

(** [e] with another decoder for the update body. *)
Definition withDecodeUpdate {T : Types} (e : Env T)
  (d : http.Request -> option (UpdateMovieRequest T) * error) : Env T :=
  mkEnv T (userFromRequest e) (hlogFromRequest e) (muxVars e)
    (decodeCreate e) d (decodeLogger e) (decoderErr e) (encode e).

(** Two decoded update bodies that differ at most in the external ID. *)
Definition sameButExternalID {T : Types}
  (x y : option (UpdateMovieRequest T) * error) : Prop :=
  snd x = snd y
  /\ match fst x, fst y with
     | None, None => True
     | Some a, Some b => fields a = fields b
     | _, _ => False
     end.

Definition errorResponses (t : list Effect) : nat :=
  List.length (filter (fun fx => match fx with
                                 | FxErrorResponse _ _ => true
                                 | _ => false
                                 end) t).

Definition serviceCalls (t : list Effect) : nat :=
  List.length (filter (fun fx => match fx with
                                 | FxCall _ => true
                                 | _ => false
                                 end) t).

Definition decodes (t : list Effect) : nat :=
  List.length (filter (fun fx => match fx with
                                 | FxDecode => true
                                 | _ => false
                                 end) t).

Definition closes (t : list Effect) : nat :=
  List.length (filter (fun fx => match fx with
                                 | FxClose => true
                                 | _ => false
                                 end) t).

Definition encodes (t : list Effect) : nat :=
  List.length (filter (fun fx => match fx with
                                 | FxEncode _ => true
                                 | _ => false
                                 end) t).

(** A run that keeps the handlers' discipline: at most one error response,
    one service call, one encoding and one decoding; the body closed once
    for each decoding and as the last thing done; nothing encoded without a
    service call; and, when the handler returns, an answer given. *)
Definition orderly (run : Run unit) : bool :=
  let t := fst run in
  Nat.leb (errorResponses t) 1
  && Nat.leb (serviceCalls t) 1
  && Nat.leb (encodes t) (serviceCalls t)
  && Nat.leb (decodes t) 1
  && Nat.eqb (closes t) (decodes t)
  && match decodes t, last t FxClose with
     | O, _ => true
     | _, FxClose => true
     | _, _ => false
     end
  && match snd run with
     | Returned _ => Nat.leb 1 (errorResponses t + encodes t)
     | Panicked _ => true
     end.

End app.

(** ** Sample collaborators for the handlers *)

Definition sampleTypes : app.Types :=
  app.mkTypes string string string string string string string string
    string string.

(** Decoding fails on a bare request and succeeds otherwise; [decoderErr]
    classifies a decoding error as Invalid; encoding succeeds. *)
Definition openEnv : app.Env sampleTypes :=
  app.mkEnv sampleTypes
    (fun _ => (alice, None))
    (fun _ => debugLogger)
    (fun _ => [("extlID", "m-42")])
    (fun r => match http.ctx r with
              | Some _ => (Some "title", None)
              | None => (Some EmptyString, Some (errors.New "EOF"))
              end)
    (fun r => match http.ctx r with
              | Some _ =>
                  (Some (app.mkUpdateMovieRequest (T:=sampleTypes)
                           "from-body" "title"), None)
              | None => (Some (app.mkUpdateMovieRequest (T:=sampleTypes)
                                 EmptyString EmptyString),
                         Some (errors.New "EOF"))
              end)
    (fun r => match http.ctx r with
              | Some _ => (Some "debug", None)
              | None => (Some EmptyString, Some (errors.New "EOF"))
              end)
    (fun err => option_map (errs.E errs.Invalid) err)
    (fun _ _ => ("{}", None)).

(** The same, behind an authentication step that wants an access token. *)
Definition strictEnv : app.Env sampleTypes :=
  app.mkEnv sampleTypes
    (fun r => match auth.AccessTokenFromRequest (Some r) with
              | Returned (_, true) => (alice, None)
              | _ => (user.mkUser EmptyString,
                      Some (errs.E errs.Unauthenticated
                              (errors.New "no access token")))
              end)
    (app.hlogFromRequest openEnv) (app.muxVars openEnv)
    (app.decodeCreate openEnv) (app.decodeUpdate openEnv)
    (app.decodeLogger openEnv) (app.decoderErr openEnv)
    (app.encode openEnv).

(** The body [null]: decoding succeeds and leaves the pointer nil. *)
Definition nullBodyEnv : app.Env sampleTypes :=
  app.withDecodeUpdate openEnv (fun _ => (None, None)).

(** Services that answer with what they were handed. *)
Definition echoServer : app.Server sampleTypes :=
  app.mkServer sampleTypes
    (fun _ rb _ => (match rb with Some b => b | None => EmptyString end, None))
    (fun _ rb _ => (match rb with
                    | Some b => app.ExternalID b
                    | None => EmptyString
                    end, None))
    (fun _ id => (id, None))
    (fun _ id => (id, Some (errs.E errs.NotFound (errors.New "no movie"))))
    (fun _ => ("all", None))
    "level"
    (fun rb => (match rb with Some b => b | None => EmptyString end, None))
    (fun _ _ => "pong").

(** ** Reading a trace and a context chain *)

(** The calls a trace makes on the logger, in order. *)
Fixpoint logCalls (t : list Event)
  : list (zerolog.Level * list (string * string) * string) :=
  match t with
  | [] => []
  | EvEnforce _ _ _ :: t' => logCalls t'
  | EvLog _ lvl fields msg :: t' => (lvl, fields, msg) :: logCalls t'
  end.

(** The text of an audit entry, as [Msgf] lays it out. *)
Definition auditText (word email obj act : string) : string :=
  word ++ " (sub: " ++ email ++ ", obj: " ++ obj ++ ", act: " ++ act ++ ")".

(** [contextKey] is unexported: a node keyed by a [contextKey] can only
    have been made by [CtxWithRealm] or [CtxWithAccessToken], the two places
    of the package that call [context.WithValue]; every other node has a key
    of another type. *)
Definition ownNode (key val : any) : bool :=
  match key with
  | any_contextKey k =>
      match val with
      | any_Realm _ => String.eqb k auth.contextKeyRealm
      | any_AccessToken _ => String.eqb k auth.contextKeyAccessToken
      | _ => false
      end
  | _ => true
  end.

(** The chains a program can build: each node is of the kind above. *)
Fixpoint wellKeyed (ctx : context.Context) : bool :=
  match ctx with
  | context.Background => true
  | context.valueCtx parent key val => ownNode key val && wellKeyed parent
  | context.cancelCtx parent => wellKeyed parent
  end.

(** A key of a type other than [contextKey]. *)
Definition foreignKey (key : any) : bool :=
  match key with
  | any_contextKey _ => false
  | _ => true
  end.

(** The zero-value authorizer: its enforcer pointer is nil. *)
Definition zeroAuthorizer : auth.CasbinAuthorizer :=
  auth.mkCasbinAuthorizer None.

(** What [Authorize] does once [obj] and [act] are rebound to the canonical
    pair: the part of its body after the two [if] chains. *)
Definition askStore (a : auth.CasbinAuthorizer) (lgr : zerolog.Logger)
  (sub : user.User) (obj act : string) : Eff error :=
  (authorized <- casbin.Enforce (auth.Enforcer a) (user.Email sub) obj act ;;
   if authorized : bool then
     (Msgf lgr zerolog.DebugLevel
        [("sub", user.Email sub); ("obj", obj); ("act", act)]
        "Authorized (sub: %s, obj: %s, act: %s)"
        [user.Email sub; obj; act] ;;;
      ret None)
   else
     (Msgf lgr zerolog.InfoLevel
        [("sub", user.Email sub); ("obj", obj); ("act", act)]
        "Unauthorized (sub: %s, obj: %s, act: %s)"
        [user.Email sub; obj; act] ;;;
      ret (Some (errs.NewUnauthorizedError (errors.New
             (fmt.Sprintf "user %s does not have %s permission for %s"
                [user.Email sub; act; obj]))))))%eff.

(** A request built as a bare struct: its context field is nil. *)
Definition bareRequest : http.Request := http.mkRequest None.

(** ** The traced computations form a monad *)
Section EffFacts.

Context {A B C : Type}.

Lemma bind_ret_l (a : A) (k : A -> Eff B) : bind (ret a) k = k a.
Proof. unfold bind, ret. now destruct (k a). Qed.

Lemma bind_ret_r (m : Eff A) : bind m ret = m.
Proof.
  destruct m as [t [a | why]]; simpl; [| reflexivity].
  now rewrite app_nil_r.
Qed.

Lemma bind_assoc (m : Eff A) (k : A -> Eff B) (h : B -> Eff C) :
  bind (bind m k) h = bind m (fun a => bind (k a) h).
Proof.
  destruct m as [t [a | why]]; simpl; [| reflexivity].
  destruct (k a) as [t1 [b | why]]; simpl; [| reflexivity].
  destruct (h b) as [t2 o]. now rewrite app_assoc.
Qed.

(** A panic ends the computation: what follows is not run. *)
Lemma bind_panic (why : string) (k : A -> Eff B) :
  bind (panic why) k = panic why.
Proof. reflexivity. Qed.

End EffFacts.

(** ** Strings: prefixes and occurrences *)
Section StringFacts.

Lemma append_length (s1 s2 : string) :
  String.length (s1 ++ s2) = String.length s1 + String.length s2.
Proof.
  induction s1 as [|c s1 IH]; simpl; [reflexivity | now rewrite IH].
Qed.

Lemma append_assoc (s1 s2 s3 : string) : (s1 ++ s2) ++ s3 = s1 ++ s2 ++ s3.
Proof.
  induction s1 as [|c s1 IH]; simpl; [reflexivity | now rewrite IH].
Qed.

Lemma substring_head (p s : string) :
  substring 0 (String.length p) s = p <-> exists r, s = p ++ r.
Proof.
  revert s; induction p as [|c p IH]; intros s.
  - split; [intros _; now exists s | intros _; now destruct s].
  - destruct s as [|c' s]; simpl.
    + split; [discriminate | intros [r Hr]; discriminate].
    + split.
      * intros H; injection H as -> H.
        apply IH in H as [r ->]. now exists r.
      * intros [r Hr]; injection Hr as -> Hr.
        f_equal. apply IH. now exists r.
Qed.

Lemma HasPrefix_iff (s p : string) :
  strings.HasPrefix s p = true <-> exists r, s = p ++ r.
Proof.
  unfold strings.HasPrefix. rewrite andb_true_iff, String.eqb_eq.
  rewrite substring_head. split.
  - now intros [_ H].
  - intros [r ->]. split; [| now exists r].
    apply Nat.leb_le. rewrite append_length. lia.
Qed.

Lemma Contains_iff (s x : string) :
  strings.Contains s x = true <-> exists l r, s = l ++ x ++ r.
Proof.
  induction s as [|c s IH].
  - simpl. rewrite orb_false_r, HasPrefix_iff. split.
    + intros [r Hr]. now exists EmptyString, r.
    + intros [l [r H]]. destruct l; [now exists r | discriminate].
  - change (strings.Contains (String c s) x)
      with (strings.HasPrefix (String c s) x || strings.Contains s x).
    rewrite orb_true_iff, HasPrefix_iff, IH. split.
    + intros [[r Hr] | [l [r Hr]]].
      * now exists EmptyString, r.
      * exists (String c l), r. simpl. now rewrite Hr.
    + intros [l [r H]]. destruct l as [|c' l].
      * left. now exists r.
      * right. simpl in H. injection H as _ H. now exists l, r.
Qed.

Lemma Contains_middle (l x r : string) :
  strings.Contains (l ++ x ++ r) x = true.
Proof. apply Contains_iff. now exists l, r. Qed.

Lemma Contains_end (l x : string) : strings.Contains (l ++ x) x = true.
Proof.
  apply Contains_iff. exists l, EmptyString.
  f_equal. induction x as [|c x IH]; simpl; [reflexivity | now rewrite <- IH].
Qed.

Lemma denialText_names (email act obj : string) :
  strings.Contains (denialText email act obj) email = true
  /\ strings.Contains (denialText email act obj) obj = true
  /\ strings.Contains (denialText email act obj) act = true.
Proof.
  unfold denialText. split; [| split].
  - apply Contains_middle.
  - rewrite <- !append_assoc. apply Contains_end.
  - rewrite <- (append_assoc "user " email).
    rewrite <- (append_assoc _ " does not have ").
    apply Contains_middle.
Qed.

End StringFacts.

(** ** Context chains *)
Section ContextFacts.

Lemma Value_WithValue_same (ctx : context.Context) (key val : any) :
  context.Value (context.WithValue ctx key val) key = val.
Proof.
  unfold context.WithValue. simpl.
  destruct (any_eq_dec key key) as [_ | Hne]; [reflexivity | now elim Hne].
Qed.

Lemma Value_WithValue_other (ctx : context.Context) (k key val : any) :
  k <> key ->
  context.Value (context.WithValue ctx k val) key = context.Value ctx key.
Proof.
  intros Hne. unfold context.WithValue. simpl.
  destruct (any_eq_dec k key) as [He | _]; [now elim Hne | reflexivity].
Qed.

Lemma Value_not_carried (ctx : context.Context) (key : any) :
  context.carries ctx key = false -> context.Value ctx key = any_nil.
Proof.
  induction ctx as [| parent IH k v | parent IH]; simpl.
  - reflexivity.
  - destruct (any_eq_dec k key); [discriminate | exact IH].
  - exact IH.
Qed.

(** Attaching a realm leaves the access token as it was, and conversely:
    the two keys differ. *)
Lemma AccessToken_after_realm (ctx : context.Context)
  (realm : WWWAuthenticateRealm) :
  auth.AccessTokenFromCtx (auth.CtxWithRealm ctx realm)
  = auth.AccessTokenFromCtx ctx.
Proof.
  unfold auth.AccessTokenFromCtx, auth.CtxWithRealm.
  rewrite Value_WithValue_other; [reflexivity | discriminate].
Qed.

Lemma Realm_after_AccessToken (ctx : context.Context) (tok : AccessToken) :
  auth.RealmFromCtx (auth.CtxWithAccessToken ctx tok) = auth.RealmFromCtx ctx.
Proof.
  unfold auth.RealmFromCtx, auth.CtxWithAccessToken.
  rewrite Value_WithValue_other; [reflexivity | discriminate].
Qed.

(** Without the nil guard the method call on the request would panic. *)
Lemma Context_nil_request_panics :
  http.Context None = Panicked nilDereference.
Proof. reflexivity. Qed.

Lemma Context_returns (req : http.Request) :
  exists c, http.Context (Some req) = Returned c.
Proof.
  unfold http.Context. destruct (http.ctx req) as [c|]; eexists; reflexivity.
Qed.

End ContextFacts.

(** ** What [Authorize] computes *)
Section AuthorizeFacts.

Variables (lgr : zerolog.Logger) (sub : user.User) (obj act : string).

Lemma append_nil_r (s : string) : s ++ "" = s.
Proof. induction s as [|c s IH]; simpl; [reflexivity | now rewrite IH]. Qed.

Lemma Sprintf_denial (email a o : string) :
  fmt.Sprintf "user %s does not have %s permission for %s" [email; a; o]
  = denialText email a o.
Proof. unfold denialText. cbn. now rewrite append_nil_r. Qed.

Lemma canonicalObject_movies :
  strings.HasPrefix obj auth.moviesPath = true ->
  canonicalObject obj = Some auth.moviesPath.
Proof.
  intros H. unfold canonicalObject, knownPrefixes. cbn [find]. now rewrite H.
Qed.

Lemma canonicalObject_logger :
  strings.HasPrefix obj auth.moviesPath = false ->
  strings.HasPrefix obj auth.loggerPath = true ->
  canonicalObject obj = Some auth.loggerPath.
Proof.
  intros H1 H2. unfold canonicalObject, knownPrefixes. cbn [find].
  now rewrite H1, H2.
Qed.

(** The two prefixes exclude each other, so the order of the two tests
    decides nothing more than which test is made first. *)
Lemma prefixes_exclusive :
  strings.HasPrefix obj auth.moviesPath = true ->
  strings.HasPrefix obj auth.loggerPath = false.
Proof.
  intros H. apply HasPrefix_iff in H as [r ->].
  apply not_true_is_false. intros H.
  apply HasPrefix_iff in H as [r' H]. discriminate H.
Qed.

Lemma canonicalObject_none :
  canonicalObject obj = None <->
  strings.HasPrefix obj auth.moviesPath = false
  /\ strings.HasPrefix obj auth.loggerPath = false.
Proof.
  unfold canonicalObject, knownPrefixes. cbn [find].
  destruct (strings.HasPrefix obj auth.moviesPath);
    destruct (strings.HasPrefix obj auth.loggerPath);
    split; try discriminate; try tauto; intros [? ?]; discriminate.
Qed.

Lemma canonicalObject_known (p : string) :
  canonicalObject obj = Some p ->
  In p knownPrefixes /\ strings.HasPrefix obj p = true.
Proof.
  unfold canonicalObject. intros H. apply find_some in H. exact H.
Qed.

(** No prefix matches: the early return, before anything is asked. *)
Lemma Authorize_unmatched (a : auth.CasbinAuthorizer) :
  canonicalObject obj = None ->
  auth.Authorize a lgr sub obj act
  = ([], Returned (Some (errs.NewUnauthorizedError
                           (errors.New (denialText (user.Email sub) act obj))))).
Proof.
  intros H. apply canonicalObject_none in H as [H1 H2].
  unfold auth.Authorize. rewrite H1, H2, Sprintf_denial. reflexivity.
Qed.

(** A prefix matches: one query on the canonical pair, then the log call
    and the answer. *)
Lemma Authorize_matched (store : casbin.Enforcer) (p : string) :
  canonicalObject obj = Some p ->
  auth.Authorize (authorizerOf store) lgr sub obj act
  = let email := user.Email sub in
    let a' := canonicalAction act in
    let fields := [("sub", email); ("obj", p); ("act", a')] in
    if casbin.decide store email p a' then
      ([EvEnforce email p a';
        EvLog lgr zerolog.DebugLevel fields
          (fmt.Sprintf "Authorized (sub: %s, obj: %s, act: %s)"
             [email; p; a'])],
       Returned None)
    else
      ([EvEnforce email p a';
        EvLog lgr zerolog.InfoLevel fields
          (fmt.Sprintf "Unauthorized (sub: %s, obj: %s, act: %s)"
             [email; p; a'])],
       Returned (Some (errs.NewUnauthorizedError
                         (errors.New (denialText email a' p))))).
Proof.
  unfold canonicalObject, knownPrefixes. cbn [find]. intros H.
  unfold auth.Authorize, canonicalAction, http.MethodGet.
  destruct (strings.HasPrefix obj auth.moviesPath);
    [| destruct (strings.HasPrefix obj auth.loggerPath); [| discriminate]];
    injection H as <-;
    cbv zeta; rewrite Sprintf_denial;
    unfold authorizerOf, casbin.Enforce, Msgf, emit, ret, bind;
    cbn [auth.Enforcer];
    destruct (casbin.decide store _ _ _); reflexivity.
Qed.

End AuthorizeFacts.

(** ** The authorization engine *)

(** C1.  An object path that matches neither the movies prefix nor the
    logger prefix is denied at once: for every subject and verb there is one
    Unauthorized error that [Authorize] returns whatever the authorizer (and
    so whatever the enforce function, or none at all) and whatever the
    logger, and the trace is empty, so the policy store is not queried. *)
Theorem Authorize_unknown_prefix_denied (sub : user.User) (obj act : string) :
  strings.HasPrefix obj auth.moviesPath = false ->
  strings.HasPrefix obj auth.loggerPath = false ->
  exists err,
    errs.KindOf err = errs.Unauthorized
    /\ forall (a : auth.CasbinAuthorizer) (lgr : zerolog.Logger),
         auth.Authorize a lgr sub obj act = ([], Returned (Some err))
         /\ queries (trace (auth.Authorize a lgr sub obj act)) = [].
Proof.
  intros H1 H2.
  assert (Hnone : canonicalObject obj = None)
    by (apply canonicalObject_none; now split).
  eexists. split; [| intros a lgr; rewrite Authorize_unmatched by exact Hnone;
                     split; reflexivity].
  reflexivity.
Qed.

Lemma Authorize_unknown_prefix_denied_witness :
  strings.HasPrefix "/api/v1/unknown-resource" auth.moviesPath = false
  /\ strings.HasPrefix "/api/v1/unknown-resource" auth.loggerPath = false
  /\ exists err,
       errs.KindOf err = errs.Unauthorized
       /\ forall (a : auth.CasbinAuthorizer) (lgr : zerolog.Logger),
            auth.Authorize a lgr alice "/api/v1/unknown-resource" "DELETE"
            = ([], Returned (Some err))
            /\ queries (trace (auth.Authorize a lgr alice
                                 "/api/v1/unknown-resource" "DELETE")) = [].
Proof.
  split; [reflexivity | split; [reflexivity |]].
  apply (Authorize_unknown_prefix_denied alice "/api/v1/unknown-resource"
           "DELETE"); reflexivity.
Defined.

(** C2.  With an object path under a known prefix, [Authorize] asks the
    policy store exactly once, and the action it asks about is "read"
    exactly when the verb is the GET method string and "write" for every
    other verb string. *)
Theorem Authorize_canonical_action
  (store : casbin.Enforcer) (lgr : zerolog.Logger) (sub : user.User)
  (obj act : string) :
  strings.HasPrefix obj auth.moviesPath = true
  \/ strings.HasPrefix obj auth.loggerPath = true ->
  exists o a',
    queries (trace (auth.Authorize (authorizerOf store) lgr sub obj act))
    = [(user.Email sub, o, a')]
    /\ (a' = "read" <-> act = http.MethodGet)
    /\ (act <> http.MethodGet -> a' = "write").
Proof.
  intros Hknown.
  assert (Hp : exists p, canonicalObject obj = Some p).
  { destruct (canonicalObject obj) as [p|] eqn:E; [now exists p |].
    apply canonicalObject_none in E as [E1 E2].
    destruct Hknown as [H | H]; congruence. }
  destruct Hp as [p Hp].
  exists p, (canonicalAction act). split.
  - rewrite (Authorize_matched lgr sub obj act store p Hp). cbv zeta.
    destruct (casbin.decide store _ _ _); reflexivity.
  - unfold canonicalAction, http.MethodGet.
    destruct (String.eqb_spec act "GET") as [-> | Hne].
    + split; [tauto | intros H; now elim H].
    + split; [split; [discriminate | intros H; now elim Hne] | reflexivity].
Qed.

Lemma Authorize_canonical_action_witness :
  (strings.HasPrefix "/api/v1/logger" auth.moviesPath = true
   \/ strings.HasPrefix "/api/v1/logger" auth.loggerPath = true)
  /\ exists o a',
       queries (trace (auth.Authorize (authorizerOf readOnlyStore)
                         debugLogger alice "/api/v1/logger" "get"))
       = [(user.Email alice, o, a')]
       /\ (a' = "read" <-> "get" = http.MethodGet)
       /\ ("get" <> http.MethodGet -> a' = "write").
Proof.
  split; [right; reflexivity |].
  apply (Authorize_canonical_action readOnlyStore debugLogger alice
           "/api/v1/logger" "get").
  right; reflexivity.
Defined.

(** C3.  The object the policy store is asked about is the matched prefix,
    not the path: a path under the movies prefix is asked about as the
    movies prefix (whatever else it may match, the movies test coming
    first), a path under the logger prefix only as the logger prefix, and in
    both cases this is the first match in the ordered list of the design.
    Hence /api/v1/movies/123 and /api/v1/movies behave alike for every
    authorizer, logger, subject and verb, and both are asked about as
    /api/v1/movies. *)
Theorem Authorize_canonical_object :
  (forall store lgr sub obj act,
      strings.HasPrefix obj auth.moviesPath = true ->
      queries (trace (auth.Authorize (authorizerOf store) lgr sub obj act))
      = [(user.Email sub, auth.moviesPath, canonicalAction act)])
  /\ (forall store lgr sub obj act,
         strings.HasPrefix obj auth.moviesPath = false ->
         strings.HasPrefix obj auth.loggerPath = true ->
         queries (trace (auth.Authorize (authorizerOf store) lgr sub obj act))
         = [(user.Email sub, auth.loggerPath, canonicalAction act)])
  /\ (forall store lgr sub obj act p,
         canonicalObject obj = Some p ->
         queries (trace (auth.Authorize (authorizerOf store) lgr sub obj act))
         = [(user.Email sub, p, canonicalAction act)])
  /\ (forall a lgr sub act,
         auth.Authorize a lgr sub "/api/v1/movies/123" act
         = auth.Authorize a lgr sub "/api/v1/movies" act)
  /\ (forall store lgr sub act,
         queries (trace (auth.Authorize (authorizerOf store) lgr sub
                           "/api/v1/movies/123" act))
         = [(user.Email sub, "/api/v1/movies", canonicalAction act)]).
Proof.
  assert (Hgen : forall store lgr sub obj act p,
             canonicalObject obj = Some p ->
             queries (trace (auth.Authorize (authorizerOf store) lgr sub
                               obj act))
             = [(user.Email sub, p, canonicalAction act)]).
  { intros store lgr sub obj act p Hp.
    rewrite (Authorize_matched lgr sub obj act store p Hp). cbv zeta.
    destruct (casbin.decide store _ _ _); reflexivity. }
  split; [| split; [| split; [| split]]].
  - intros store lgr sub obj act H.
    apply Hgen, canonicalObject_movies, H.
  - intros store lgr sub obj act H1 H2.
    apply Hgen, canonicalObject_logger; assumption.
  - exact Hgen.
  - intros a lgr sub act. unfold auth.Authorize.
    replace (strings.HasPrefix "/api/v1/movies/123" auth.moviesPath)
      with true by reflexivity.
    replace (strings.HasPrefix "/api/v1/movies" auth.moviesPath)
      with true by reflexivity.
    reflexivity.
  - intros store lgr sub act. apply Hgen. reflexivity.
Qed.

Lemma Authorize_canonical_object_witness :
  strings.HasPrefix "/api/v1/movies/42" auth.moviesPath = true
  /\ queries (trace (auth.Authorize (authorizerOf readOnlyStore) debugLogger
                       alice "/api/v1/movies/42" "GET"))
     = [("alice@example.com", "/api/v1/movies", "read")]
  /\ strings.HasPrefix "/api/v1/logger/level" auth.moviesPath = false
  /\ strings.HasPrefix "/api/v1/logger/level" auth.loggerPath = true
  /\ queries (trace (auth.Authorize (authorizerOf readOnlyStore) debugLogger
                       alice "/api/v1/logger/level" "PUT"))
     = [("alice@example.com", "/api/v1/logger", "write")]
  /\ canonicalObject "/api/v1/moviesandmore" = Some "/api/v1/movies"
  /\ queries (trace (auth.Authorize (authorizerOf readOnlyStore) debugLogger
                       alice "/api/v1/moviesandmore" "GET"))
     = [("alice@example.com", "/api/v1/movies", "read")].
Proof.
  destruct Authorize_canonical_object as (Hm & Hl & Hc & _ & _).
  split; [reflexivity |].
  split; [apply (Hm readOnlyStore debugLogger alice "/api/v1/movies/42" "GET");
          reflexivity |].
  split; [reflexivity |].
  split; [reflexivity |].
  split; [apply (Hl readOnlyStore debugLogger alice "/api/v1/logger/level"
                   "PUT"); reflexivity |].
  split; [reflexivity |].
  apply (Hc readOnlyStore debugLogger alice "/api/v1/moviesandmore" "GET"
           "/api/v1/movies"); reflexivity.
Defined.

(** C4.  With a policy store loaded, [Authorize] always returns, and what it
    returns is either nil, exactly when a known prefix matches and the store
    answers true on the canonical object and action, or an error whose kind
    is Unauthorized; it returns no error of any other kind. *)
Theorem Authorize_allow_or_unauthorized
  (store : casbin.Enforcer) (lgr : zerolog.Logger) (sub : user.User)
  (obj act : string) :
  exists t r,
    auth.Authorize (authorizerOf store) lgr sub obj act = (t, Returned r)
    /\ (r = None <->
        exists p, canonicalObject obj = Some p
                  /\ casbin.decide store (user.Email sub) p
                       (canonicalAction act) = true)
    /\ (forall err, r = Some err -> errs.KindOf err = errs.Unauthorized)
    /\ (decision r = Allow \/ decision r = Deny errs.Unauthorized).
Proof.
  destruct (canonicalObject obj) as [p|] eqn:Hp.
  - rewrite (Authorize_matched lgr sub obj act store p Hp). cbv zeta.
    destruct (casbin.decide store (user.Email sub) p (canonicalAction act))
      eqn:Hd; do 2 eexists; (split; [reflexivity |]).
    + split; [| split].
      * split; [intros _; exists p; now split | reflexivity].
      * discriminate.
      * now left.
    + split; [| split].
      * split; [discriminate |].
        intros [q [Hq Hd']]. injection Hq as <-. congruence.
      * intros err H; injection H as <-. reflexivity.
      * now right.
  - rewrite (Authorize_unmatched lgr sub obj act _ Hp).
    do 2 eexists; split; [reflexivity |]. split; [| split].
    + split; [discriminate | intros [q [Hq _]]; discriminate].
    + intros err H; injection H as <-. reflexivity.
    + now right.
Qed.

(** C5.  [Authorize] is deterministic: the same subject, object path and
    verb, asked of a policy store that has not changed (one that answers
    every query as before), give the same returned value, hence the same
    decision, whichever logger each call was handed. *)
Theorem Authorize_deterministic
  (store1 store2 : casbin.Enforcer) (lgr1 lgr2 : zerolog.Logger)
  (sub : user.User) (obj act : string) :
  (forall s o a, casbin.decide store1 s o a = casbin.decide store2 s o a) ->
  exists r,
    outcome (auth.Authorize (authorizerOf store1) lgr1 sub obj act)
    = Returned r
    /\ outcome (auth.Authorize (authorizerOf store2) lgr2 sub obj act)
       = Returned r
    /\ queries (trace (auth.Authorize (authorizerOf store1) lgr1 sub obj act))
       = queries (trace (auth.Authorize (authorizerOf store2) lgr2 sub obj
                           act)).
Proof.
  intros Hsame.
  destruct (canonicalObject obj) as [p|] eqn:Hp.
  - rewrite (Authorize_matched lgr1 sub obj act store1 p Hp),
            (Authorize_matched lgr2 sub obj act store2 p Hp). cbv zeta.
    rewrite Hsame.
    destruct (casbin.decide store2 _ _ _); eexists; repeat split.
  - rewrite !(Authorize_unmatched _ sub obj act _ Hp).
    eexists; repeat split.
Qed.

Lemma Authorize_deterministic_witness :
  (forall s o a,
      casbin.decide readOnlyStore s o a = casbin.decide readOnlyStore' s o a)
  /\ exists r,
       outcome (auth.Authorize (authorizerOf readOnlyStore) debugLogger alice
                  "/api/v1/movies" "POST") = Returned r
       /\ outcome (auth.Authorize (authorizerOf readOnlyStore') quietLogger
                     alice "/api/v1/movies" "POST") = Returned r
       /\ queries (trace (auth.Authorize (authorizerOf readOnlyStore)
                            debugLogger alice "/api/v1/movies" "POST"))
          = queries (trace (auth.Authorize (authorizerOf readOnlyStore')
                              quietLogger alice "/api/v1/movies" "POST")).
Proof.
  assert (Hsame : forall s o a,
             casbin.decide readOnlyStore s o a
             = casbin.decide readOnlyStore' s o a).
  { intros s o a. simpl. rewrite negb_involutive. apply String.eqb_sym. }
  split; [exact Hsame |].
  apply (Authorize_deterministic readOnlyStore readOnlyStore' debugLogger
           quietLogger alice "/api/v1/movies" "POST" Hsame).
Defined.

(** ** The identity context carrier *)

(** C6.  Attaching an access token to any context and retrieving it gives
    back the attached value with [ok = true]; retrieving from a context no
    node of which carries the access-token key gives the zero token with
    [ok = false]: not found, and no token made up. *)
Theorem AccessToken_roundtrip :
  (forall (ctx : context.Context) (tok : AccessToken),
      auth.AccessTokenFromCtx (auth.CtxWithAccessToken ctx tok) = (tok, true))
  /\ (forall ctx : context.Context,
         context.carries ctx (any_contextKey auth.contextKeyAccessToken)
         = false ->
         auth.AccessTokenFromCtx ctx
         = (mkAccessToken EmptyString EmptyString, false)).
Proof.
  split.
  - intros ctx tok. unfold auth.AccessTokenFromCtx, auth.CtxWithAccessToken.
    now rewrite Value_WithValue_same.
  - intros ctx H. unfold auth.AccessTokenFromCtx.
    now rewrite (Value_not_carried _ _ H).
Qed.

Lemma AccessToken_roundtrip_witness :
  auth.AccessTokenFromCtx
    (auth.CtxWithAccessToken ctxWithoutToken (bearer "abcdef123"))
  = (bearer "abcdef123", true)
  /\ context.carries ctxWithoutToken
       (any_contextKey auth.contextKeyAccessToken) = false
  /\ auth.AccessTokenFromCtx ctxWithoutToken
     = (mkAccessToken EmptyString EmptyString, false).
Proof.
  destruct AccessToken_roundtrip as [Hrt Habs].
  split; [apply (Hrt ctxWithoutToken (bearer "abcdef123")) |].
  split; [reflexivity |].
  apply (Habs ctxWithoutToken). reflexivity.
Defined.

(** C7, as the code has it.  In a context no node of which carries the realm
    key, [RealmFromCtx] returns the zero realm, the empty string, with
    [ok = false]; what it returns is not [DefaultRealm]. *)
Theorem RealmFromCtx_absent (ctx : context.Context) :
  context.carries ctx (any_contextKey auth.contextKeyRealm) = false ->
  auth.RealmFromCtx ctx = (EmptyString, false)
  /\ fst (auth.RealmFromCtx ctx) <> auth.DefaultRealm.
Proof.
  intros H. unfold auth.RealmFromCtx.
  rewrite (Value_not_carried _ _ H). split; [reflexivity | discriminate].
Qed.

Lemma RealmFromCtx_absent_witness :
  context.carries ctxWithoutRealm (any_contextKey auth.contextKeyRealm) = false
  /\ auth.RealmFromCtx ctxWithoutRealm = (EmptyString, false)
  /\ fst (auth.RealmFromCtx ctxWithoutRealm) <> auth.DefaultRealm.
Proof.
  split; [reflexivity |].
  apply (RealmFromCtx_absent ctxWithoutRealm). reflexivity.
Defined.

(** C7, as the design states it, fails on the background context: no realm
    is attached there, and the retrieval reports not-found with the empty
    realm instead of returning "go-api-basic". *)
Lemma RealmFromCtx_default_counterexample :
  context.carries context.Background (any_contextKey auth.contextKeyRealm)
  = false
  /\ auth.DefaultRealm = "go-api-basic"
  /\ auth.RealmFromCtx context.Background = (EmptyString, false)
  /\ fst (auth.RealmFromCtx context.Background) <> auth.DefaultRealm
  /\ snd (auth.RealmFromCtx context.Background) <> true
  /\ auth.RealmFromRequest (Some http.NewRequest)
     = Returned (EmptyString, false).
Proof.
  repeat split; try reflexivity; discriminate.
Qed.

(** C8, evaluated.  A token attached with an empty token string comes back
    with [ok = true], from the context and from the request alike: the same
    outcome flag as for a non-empty token, and the opposite of the one for
    a context without a token. *)
Theorem AccessToken_empty_token_found :
  auth.AccessTokenFromCtx ctxEmptyToken = (bearer "", true)
  /\ auth.AccessTokenFromRequest
       (Some (http.WithContext http.NewRequest ctxEmptyToken))
     = Returned (bearer "", true)
  /\ snd (auth.AccessTokenFromCtx ctxEmptyToken)
     = snd (auth.AccessTokenFromCtx
              (auth.CtxWithAccessToken context.Background
                 (bearer "abcdef123")))
  /\ snd (auth.AccessTokenFromCtx context.Background) = false.
Proof. repeat split. Qed.

(** C9, as the code has it.  Every error [Authorize] returns is of kind
    Unauthorized.  When the policy store denied, its message names the
    subject, the canonical object and the canonical action; when no known
    prefix matched, there is no canonical pair yet and the message names the
    subject, the path and the verb as they were passed. *)
Theorem Authorize_denial_message
  (store : casbin.Enforcer) (lgr : zerolog.Logger) (sub : user.User)
  (obj act : string) (err : errs.Error) :
  outcome (auth.Authorize (authorizerOf store) lgr sub obj act)
  = Returned (Some err) ->
  errs.KindOf err = errs.Unauthorized
  /\ (namesCanonical sub obj act err \/ namesRaw sub obj act err).
Proof.
  destruct (canonicalObject obj) as [p|] eqn:Hp.
  - rewrite (Authorize_matched lgr sub obj act store p Hp). cbv zeta.
    destruct (casbin.decide store _ _ _); cbn [outcome snd];
      intros H; [discriminate |].
    injection H as <-. split; [reflexivity |]. left.
    exists p. split; [exact Hp |]. split; [reflexivity |].
    cbn [errs.Message errs.NewUnauthorizedError errors.New].
    apply denialText_names.
  - rewrite (Authorize_unmatched lgr sub obj act _ Hp). cbn [outcome snd].
    intros H. injection H as <-. split; [reflexivity |]. right.
    split; [exact Hp |]. split; [reflexivity |].
    cbn [errs.Message errs.NewUnauthorizedError errors.New].
    apply denialText_names.
Qed.

Lemma Authorize_denial_message_witness :
  exists err,
    outcome (auth.Authorize (authorizerOf readOnlyStore) debugLogger alice
               "/api/v1/movies/42" "POST") = Returned (Some err)
    /\ errs.Message err
       = "user alice@example.com does not have write permission for /api/v1/movies"
    /\ errs.KindOf err = errs.Unauthorized
    /\ (namesCanonical alice "/api/v1/movies/42" "POST" err
        \/ namesRaw alice "/api/v1/movies/42" "POST" err).
Proof.
  eexists. split; [reflexivity |]. split; [reflexivity |].
  apply (Authorize_denial_message readOnlyStore debugLogger alice
           "/api/v1/movies/42" "POST").
  reflexivity.
Defined.

(** C9, as the design states it, fails on the early denial: for POST on
    /api/v1/unknown-resource the message holds the verb and the path as they
    were passed; it holds neither the canonical action of POST nor any of
    the known prefixes. *)
Lemma Authorize_denial_message_counterexample :
  exists err,
    auth.Authorize (authorizerOf readOnlyStore) debugLogger alice
      "/api/v1/unknown-resource" "POST" = ([], Returned (Some err))
    /\ errs.Message err
       = "user alice@example.com does not have POST permission for /api/v1/unknown-resource"
    /\ canonicalAction "POST" = "write"
    /\ strings.Contains (errs.Message err) (canonicalAction "POST") = false
    /\ (forall p, In p knownPrefixes ->
                  strings.Contains (errs.Message err) p = false)
    /\ strings.Contains (errs.Message err) "POST" = true
    /\ strings.Contains (errs.Message err) "/api/v1/unknown-resource" = true
    /\ ~ namesCanonical alice "/api/v1/unknown-resource" "POST" err.
Proof.
  eexists. split; [reflexivity |].
  split; [reflexivity |]. split; [reflexivity |]. split; [reflexivity |].
  split.
  { intros p [<- | [<- | []]]; reflexivity. }
  split; [reflexivity |]. split; [reflexivity |].
  intros [p [Hp _]]. discriminate Hp.
Qed.

(** C10.  On a nil request both retrievals return, with the zero value and
    [ok = false], and on every request, nil or not, they return rather than
    panic. *)
Theorem FromRequest_nil_request :
  auth.RealmFromRequest None = Returned (EmptyString, false)
  /\ auth.AccessTokenFromRequest None
     = Returned (mkAccessToken EmptyString EmptyString, false)
  /\ (forall r : option http.Request,
         exists v, auth.RealmFromRequest r = Returned v)
  /\ (forall r : option http.Request,
         exists v, auth.AccessTokenFromRequest r = Returned v).
Proof.
  split; [reflexivity |]. split; [reflexivity |]. split.
  - intros [req|]; [| eexists; reflexivity].
    unfold auth.RealmFromRequest.
    destruct (Context_returns req) as [c ->]. eexists; reflexivity.
  - intros [req|]; [| eexists; reflexivity].
    unfold auth.AccessTokenFromRequest.
    destruct (Context_returns req) as [c ->]. eexists; reflexivity.
Qed.

(** ** Further properties of the identity context carrier *)

(** X1.  Attaching a realm and retrieving it gives back the attached realm
    with [ok = true], from the context and from a request that holds it,
    whatever the context held before: the realm attached last is the one
    retrieved. *)
Theorem Realm_roundtrip (ctx : context.Context)
  (realm older : WWWAuthenticateRealm) (req : http.Request) :
  auth.RealmFromCtx (auth.CtxWithRealm ctx realm) = (realm, true)
  /\ auth.RealmFromCtx (auth.CtxWithRealm (auth.CtxWithRealm ctx older) realm)
     = (realm, true)
  /\ auth.RealmFromRequest
       (Some (http.WithContext req (auth.CtxWithRealm ctx realm)))
     = Returned (realm, true).
Proof.
  assert (H : forall c, auth.RealmFromCtx (auth.CtxWithRealm c realm)
                        = (realm, true)).
  { intros c. unfold auth.RealmFromCtx, auth.CtxWithRealm.
    now rewrite Value_WithValue_same. }
  split; [apply H | split; [apply H |]].
  unfold auth.RealmFromRequest, http.WithContext, http.Context.
  cbn [http.ctx Outcome_bind]. now rewrite H.
Qed.

(** X2.  The two carriers do not disturb each other, and nothing attached
    under a key of another type disturbs either: attaching a realm leaves
    the access token as it was, attaching an access token leaves the realm
    as it was, and so does a value under any key that is not a [contextKey]
    (even one spelled "realm" or "access-token") and a cancellation node. *)
Theorem carriers_independent (ctx : context.Context) :
  (forall realm,
      auth.AccessTokenFromCtx (auth.CtxWithRealm ctx realm)
      = auth.AccessTokenFromCtx ctx)
  /\ (forall tok,
         auth.RealmFromCtx (auth.CtxWithAccessToken ctx tok)
         = auth.RealmFromCtx ctx)
  /\ (forall key val,
         foreignKey key = true ->
         auth.AccessTokenFromCtx (context.WithValue ctx key val)
         = auth.AccessTokenFromCtx ctx
         /\ auth.RealmFromCtx (context.WithValue ctx key val)
            = auth.RealmFromCtx ctx)
  /\ auth.AccessTokenFromCtx (context.cancelCtx ctx)
     = auth.AccessTokenFromCtx ctx
  /\ auth.RealmFromCtx (context.cancelCtx ctx) = auth.RealmFromCtx ctx.
Proof.
  split; [intros realm; apply AccessToken_after_realm |].
  split; [intros tok; apply Realm_after_AccessToken |].
  split; [| split; reflexivity].
  intros key val Hk.
  unfold auth.AccessTokenFromCtx, auth.RealmFromCtx.
  rewrite !Value_WithValue_other; [split; reflexivity | |];
    intros ->; discriminate Hk.
Qed.

Lemma carriers_independent_witness :
  foreignKey (any_string "access-token") = true
  /\ auth.AccessTokenFromCtx
       (context.WithValue ctxEmptyToken (any_string "access-token")
          (any_AccessToken (bearer "forged")))
     = auth.AccessTokenFromCtx ctxEmptyToken
  /\ auth.RealmFromCtx
       (context.WithValue ctxEmptyToken (any_string "access-token")
          (any_AccessToken (bearer "forged")))
     = auth.RealmFromCtx ctxEmptyToken.
Proof.
  split; [reflexivity |].
  destruct (carriers_independent ctxEmptyToken) as (_ & _ & H & _).
  apply (H (any_string "access-token") (any_AccessToken (bearer "forged"))).
  reflexivity.
Defined.

(** X3.  On the chains a program can build (every [contextKey] node made by
    [CtxWithRealm] or [CtxWithAccessToken]), retrieval reports found exactly
    when some node carries the key, for the access token and for the realm;
    and such chains are closed under the package's two attach functions,
    under values of foreign keys and under cancellation nodes. *)
Theorem found_iff_attached :
  (forall ctx,
      wellKeyed ctx = true ->
      snd (auth.AccessTokenFromCtx ctx)
      = context.carries ctx (any_contextKey auth.contextKeyAccessToken)
      /\ snd (auth.RealmFromCtx ctx)
         = context.carries ctx (any_contextKey auth.contextKeyRealm))
  /\ wellKeyed context.Background = true
  /\ (forall ctx realm,
         wellKeyed (auth.CtxWithRealm ctx realm) = wellKeyed ctx)
  /\ (forall ctx tok,
         wellKeyed (auth.CtxWithAccessToken ctx tok) = wellKeyed ctx)
  /\ (forall ctx key val,
         foreignKey key = true ->
         wellKeyed (context.WithValue ctx key val) = wellKeyed ctx)
  /\ (forall ctx, wellKeyed (context.cancelCtx ctx) = wellKeyed ctx).
Proof.
  split; [| split; [reflexivity |]; split; [reflexivity |];
            split; [reflexivity |]; split; [| reflexivity]].
  - induction ctx as [| parent IH key val | parent IH]; intros Hw.
    + split; reflexivity.
    + cbn [wellKeyed] in Hw. apply andb_true_iff in Hw as [Hn Hp].
      specialize (IH Hp). destruct IH as [IHt IHr].
      unfold auth.AccessTokenFromCtx, auth.RealmFromCtx in *.
      cbn [context.Value context.carries]. split.
      * destruct (any_eq_dec key
                    (any_contextKey auth.contextKeyAccessToken)) as [-> | _];
          [| exact IHt].
        destruct val; try discriminate Hn. reflexivity.
      * destruct (any_eq_dec key (any_contextKey auth.contextKeyRealm))
          as [-> | _]; [| exact IHr].
        destruct val; try discriminate Hn. reflexivity.
    + exact (IH Hw).
  - intros ctx key val Hk. cbn [context.WithValue wellKeyed].
    destruct key; try discriminate Hk; reflexivity.
Qed.

Lemma found_iff_attached_witness :
  wellKeyed ctxWithoutToken = true
  /\ snd (auth.AccessTokenFromCtx ctxWithoutToken)
     = context.carries ctxWithoutToken
         (any_contextKey auth.contextKeyAccessToken)
  /\ snd (auth.RealmFromCtx ctxWithoutToken)
     = context.carries ctxWithoutToken (any_contextKey auth.contextKeyRealm).
Proof.
  split; [reflexivity |].
  destruct found_iff_attached as [H _].
  apply (H ctxWithoutToken). reflexivity.
Defined.

(** X4.  Through a request: a request given a context to which a token was
    attached yields that token with [ok = true]; when retrieval from any
    request, nil or bare included, reports [ok = false], the value returned
    with it is the zero token, respectively the empty realm. *)
Theorem FromRequest_roundtrip_or_zero :
  (forall req ctx tok,
      auth.AccessTokenFromRequest
        (Some (http.WithContext req (auth.CtxWithAccessToken ctx tok)))
      = Returned (tok, true))
  /\ auth.AccessTokenFromRequest (Some bareRequest)
     = Returned (mkAccessToken EmptyString EmptyString, false)
  /\ (forall r v,
         auth.AccessTokenFromRequest r = Returned v ->
         snd v = false ->
         fst v = mkAccessToken EmptyString EmptyString)
  /\ (forall r v,
         auth.RealmFromRequest r = Returned v ->
         snd v = false ->
         fst v = EmptyString).
Proof.
  split; [| split; [reflexivity | split]].
  - intros req ctx tok.
    unfold auth.AccessTokenFromRequest, http.WithContext, http.Context.
    cbn [http.ctx Outcome_bind].
    unfold auth.AccessTokenFromCtx, auth.CtxWithAccessToken.
    now rewrite Value_WithValue_same.
  - intros [req|] v H Hs.
    + unfold auth.AccessTokenFromRequest in H.
      destruct (Context_returns req) as [c Hc]. rewrite Hc in H.
      cbn [Outcome_bind] in H. injection H as <-.
      unfold auth.AccessTokenFromCtx in *.
      destruct (context.Value c _); try reflexivity. discriminate Hs.
    + injection H as <-. reflexivity.
  - intros [req|] v H Hs.
    + unfold auth.RealmFromRequest in H.
      destruct (Context_returns req) as [c Hc]. rewrite Hc in H.
      cbn [Outcome_bind] in H. injection H as <-.
      unfold auth.RealmFromCtx in *.
      destruct (context.Value c _); try reflexivity. discriminate Hs.
    + injection H as <-. reflexivity.
Qed.

Lemma FromRequest_roundtrip_or_zero_witness :
  auth.AccessTokenFromRequest (Some (http.WithContext http.NewRequest
                                       ctxWithoutToken))
  = Returned (mkAccessToken EmptyString EmptyString, false)
  /\ fst (mkAccessToken EmptyString EmptyString, false)
     = mkAccessToken EmptyString EmptyString.
Proof.
  split; [reflexivity |].
  destruct FromRequest_roundtrip_or_zero as (_ & _ & H & _).
  apply (H (Some (http.WithContext http.NewRequest ctxWithoutToken)));
    reflexivity.
Defined.

(** X5.  [NewGoogleOauth2Token] loses nothing: it never returns nil, the
    token it returns carries the access token's two strings and no refresh
    token or expiry, [NewAccessToken] on those two strings gives the access
    token back, and so two access tokens with the same oauth2 token are
    equal. *)
Theorem NewGoogleOauth2Token_faithful (tok : AccessToken) :
  (exists t,
      auth.NewGoogleOauth2Token tok = Some t
      /\ auth.NewAccessToken (oauth2.AccessToken t) (oauth2.TokenType t) = tok
      /\ oauth2.RefreshToken t = EmptyString
      /\ oauth2.Expiry t = None)
  /\ (forall tok',
         auth.NewGoogleOauth2Token tok = auth.NewGoogleOauth2Token tok' ->
         tok = tok').
Proof.
  split.
  - eexists. split; [reflexivity |]. destruct tok; repeat split.
  - intros tok' H. unfold auth.NewGoogleOauth2Token in H.
    injection H as H1 H2. destruct tok, tok'; cbn in *; congruence.
Qed.

Lemma NewGoogleOauth2Token_faithful_witness :
  auth.NewGoogleOauth2Token (bearer "abcdef123")
  = auth.NewGoogleOauth2Token (auth.NewAccessToken "abcdef123" "Bearer")
  /\ bearer "abcdef123" = auth.NewAccessToken "abcdef123" "Bearer".
Proof.
  split; [reflexivity |].
  destruct (NewGoogleOauth2Token_faithful (bearer "abcdef123")) as [_ H].
  apply (H (auth.NewAccessToken "abcdef123" "Bearer")). reflexivity.
Defined.

(** ** Further properties of the authorization engine *)
Section AuthorizeMore.

Variables (lgr : zerolog.Logger) (sub : user.User).

Lemma Sprintf_authorized (email obj act : string) :
  fmt.Sprintf "Authorized (sub: %s, obj: %s, act: %s)" [email; obj; act]
  = auditText "Authorized" email obj act.
Proof. reflexivity. Qed.

Lemma Sprintf_unauthorized (email obj act : string) :
  fmt.Sprintf "Unauthorized (sub: %s, obj: %s, act: %s)" [email; obj; act]
  = auditText "Unauthorized" email obj act.
Proof. reflexivity. Qed.

(** Past the two [if] chains [Authorize] works on the canonical pair only,
    whatever the authorizer. *)
Lemma Authorize_known (a : auth.CasbinAuthorizer) (obj act p : string) :
  canonicalObject obj = Some p ->
  auth.Authorize a lgr sub obj act
  = askStore a lgr sub p (canonicalAction act).
Proof.
  unfold canonicalObject, knownPrefixes. cbn [find]. intros H.
  unfold auth.Authorize.
  destruct (strings.HasPrefix obj auth.moviesPath);
    [| destruct (strings.HasPrefix obj auth.loggerPath); [| discriminate]];
    injection H as <-; reflexivity.
Qed.

Lemma short_path_unmatched (obj : string) :
  String.length obj < String.length auth.moviesPath ->
  canonicalObject obj = None.
Proof.
  intros Hlen. apply canonicalObject_none.
  unfold strings.HasPrefix. split; apply andb_false_iff; left;
    apply Nat.leb_gt; exact Hlen.
Qed.

End AuthorizeMore.

(** X6.  The audit trail.  With a policy store loaded and a known prefix,
    [Authorize] asks the store once and then makes exactly one call on the
    logger it was handed: at debug level with the text "Authorized (...)"
    when the store allows, at info level with "Unauthorized (...)" when it
    denies, in both cases with the fields sub, obj and act holding the
    subject and the canonical pair.  When no prefix matches, nothing is
    logged, whatever the authorizer. *)
Theorem Authorize_audit_trail
  (store : casbin.Enforcer) (lgr : zerolog.Logger) (sub : user.User)
  (obj act : string) :
  (forall p,
      canonicalObject obj = Some p ->
      trace (auth.Authorize (authorizerOf store) lgr sub obj act)
      = [EvEnforce (user.Email sub) p (canonicalAction act);
         EvLog lgr
           (if casbin.decide store (user.Email sub) p (canonicalAction act)
            then zerolog.DebugLevel else zerolog.InfoLevel)
           [("sub", user.Email sub); ("obj", p);
            ("act", canonicalAction act)]
           (auditText
              (if casbin.decide store (user.Email sub) p (canonicalAction act)
               then "Authorized" else "Unauthorized")
              (user.Email sub) p (canonicalAction act))])
  /\ (canonicalObject obj = None ->
      forall a, logCalls (trace (auth.Authorize a lgr sub obj act)) = []).
Proof.
  split.
  - intros p Hp. rewrite (Authorize_matched lgr sub obj act store p Hp).
    cbv zeta. rewrite Sprintf_authorized, Sprintf_unauthorized.
    destruct (casbin.decide store _ _ _); reflexivity.
  - intros Hp a. now rewrite (Authorize_unmatched lgr sub obj act a Hp).
Qed.

Lemma Authorize_audit_trail_witness :
  canonicalObject "/api/v1/movies" = Some "/api/v1/movies"
  /\ trace (auth.Authorize (authorizerOf readOnlyStore) quietLogger alice
              "/api/v1/movies" "POST")
     = [EvEnforce "alice@example.com" "/api/v1/movies" "write";
        EvLog quietLogger zerolog.InfoLevel
          [("sub", "alice@example.com"); ("obj", "/api/v1/movies");
           ("act", "write")]
          "Unauthorized (sub: alice@example.com, obj: /api/v1/movies, act: write)"]
  /\ canonicalObject "/api/v1/unknown-resource" = None
  /\ logCalls (trace (auth.Authorize zeroAuthorizer quietLogger alice
                        "/api/v1/unknown-resource" "POST")) = [].
Proof.
  split; [reflexivity |].
  split.
  { apply (Authorize_audit_trail readOnlyStore quietLogger alice
             "/api/v1/movies" "POST"). reflexivity. }
  split; [reflexivity |].
  apply (Authorize_audit_trail readOnlyStore quietLogger alice
           "/api/v1/unknown-resource" "POST"). reflexivity.
Defined.

(** X7.  [Authorize] does not guard the enforcer pointer: on the zero-value
    authorizer every path under a known prefix panics with a nil
    dereference, before anything is asked or logged. *)
Theorem Authorize_zero_authorizer_panics
  (lgr : zerolog.Logger) (sub : user.User) (obj act p : string) :
  canonicalObject obj = Some p ->
  auth.Authorize zeroAuthorizer lgr sub obj act
  = ([], Panicked nilDereference).
Proof.
  intros Hp. rewrite (Authorize_known lgr sub zeroAuthorizer obj act p Hp).
  reflexivity.
Qed.

Lemma Authorize_zero_authorizer_panics_witness :
  canonicalObject "/api/v1/logger" = Some "/api/v1/logger"
  /\ auth.Authorize zeroAuthorizer debugLogger alice "/api/v1/logger" "GET"
     = ([], Panicked nilDereference).
Proof.
  split; [reflexivity |].
  apply (Authorize_zero_authorizer_panics debugLogger alice "/api/v1/logger"
           "GET" "/api/v1/logger").
  reflexivity.
Defined.

(** X8.  Past canonicalization nothing of the path or the verb is left:
    two calls whose paths fall under the same known prefix and whose verbs
    are both GET or both something else give the same trace and the same
    result, for every authorizer, logger and subject. *)
Theorem Authorize_depends_on_canonical_pair
  (a : auth.CasbinAuthorizer) (lgr : zerolog.Logger) (sub : user.User)
  (obj obj' act act' p : string) :
  canonicalObject obj = Some p ->
  canonicalObject obj' = Some p ->
  canonicalAction act = canonicalAction act' ->
  auth.Authorize a lgr sub obj act = auth.Authorize a lgr sub obj' act'.
Proof.
  intros Hp Hp' Hact.
  rewrite (Authorize_known lgr sub a obj act p Hp),
          (Authorize_known lgr sub a obj' act' p Hp').
  now rewrite Hact.
Qed.

Lemma Authorize_depends_on_canonical_pair_witness :
  canonicalObject "/api/v1/movies/7" = Some "/api/v1/movies"
  /\ canonicalObject "/api/v1/movies" = Some "/api/v1/movies"
  /\ canonicalAction "DELETE" = canonicalAction "POST"
  /\ auth.Authorize (authorizerOf readOnlyStore) debugLogger alice
       "/api/v1/movies/7" "DELETE"
     = auth.Authorize (authorizerOf readOnlyStore) debugLogger alice
         "/api/v1/movies" "POST".
Proof.
  split; [reflexivity |]. split; [reflexivity |]. split; [reflexivity |].
  apply (Authorize_depends_on_canonical_pair (authorizerOf readOnlyStore)
           debugLogger alice "/api/v1/movies/7" "/api/v1/movies" "DELETE"
           "POST" "/api/v1/movies"); reflexivity.
Defined.

(** X9.  Matching is textual.  With a policy store loaded, the store is
    asked exactly when the path, as a string, starts with /api/v1/movies or
    with /api/v1/logger; what follows the prefix is not looked at, so the
    next character need not be a slash. *)
Theorem Authorize_queries_iff_prefix
  (store : casbin.Enforcer) (lgr : zerolog.Logger) (sub : user.User)
  (obj act : string) :
  queries (trace (auth.Authorize (authorizerOf store) lgr sub obj act)) <> []
  <-> (exists rest, obj = auth.moviesPath ++ rest)
      \/ (exists rest, obj = auth.loggerPath ++ rest).
Proof.
  rewrite <- !HasPrefix_iff.
  destruct (canonicalObject obj) as [p|] eqn:Hp.
  - rewrite (Authorize_matched lgr sub obj act store p Hp). cbv zeta.
    split.
    + intros _. apply canonicalObject_known in Hp as [Hin Hpre].
      destruct Hin as [<- | [<- | []]]; [left | right]; exact Hpre.
    + intros _. destruct (casbin.decide store _ _ _); discriminate.
  - rewrite (Authorize_unmatched lgr sub obj act _ Hp).
    apply canonicalObject_none in Hp as [H1 H2]. split.
    + intros H; now elim H.
    + intros [H | H]; congruence.
Qed.

(** X10.  A path shorter than the prefixes, the empty path included, is
    denied at once for every authorizer: the Unauthorized error is returned
    with the verb and the path as passed, and nothing is asked or logged. *)
Theorem Authorize_short_path_denied
  (a : auth.CasbinAuthorizer) (lgr : zerolog.Logger) (sub : user.User)
  (obj act : string) :
  String.length obj < String.length auth.moviesPath ->
  auth.Authorize a lgr sub obj act
  = ([], Returned (Some (errs.NewUnauthorizedError
                           (errors.New
                              (denialText (user.Email sub) act obj))))).
Proof.
  intros Hlen. apply Authorize_unmatched, short_path_unmatched, Hlen.
Qed.

Lemma Authorize_short_path_denied_witness :
  String.length "" < String.length auth.moviesPath
  /\ auth.Authorize (authorizerOf readOnlyStore) debugLogger alice "" "GET"
     = ([], Returned (Some (errs.NewUnauthorizedError
                              (errors.New
                                 (denialText "alice@example.com" "GET" ""))))).
Proof.
  split; [cbn; lia |].
  apply (Authorize_short_path_denied (authorizerOf readOnlyStore) debugLogger
           alice "" "GET").
  cbn; lia.
Defined.

(** ** The handlers of package app *)

(** Take apart every result of a collaborator that the goal branches on,
    innermost first. *)
Ltac answered x :=
  lazymatch x with
  | context [match _ with _ => _ end] => fail
  | _ => idtac
  end.

Ltac branch :=
  repeat (cbn;
          match goal with
          | |- context [match ?x with _ => _ end] =>
              answered x; destruct x eqn:?
          end).

Section HandlerFacts.

Context {T : app.Types}.
Variables (e : app.Env T) (s : app.Server T) (r : http.Request).

Lemma encodeResponse_orderly_tail (lgr : zerolog.Logger) (A : Type)
  (response : A) :
  exists written,
    app.encodeResponse e lgr response = ([app.FxEncode written], Returned tt)
    \/ exists err,
         app.encodeResponse e lgr response
         = ([app.FxEncode written;
             app.FxErrorResponse lgr (errs.E errs.Internal err)],
            Returned tt).
Proof.
  unfold app.encodeResponse.
  destruct (app.encode e A response) as [written [err|]];
    exists written; [right; exists err |left]; reflexivity.
Qed.

End HandlerFacts.

(** X11.  The two handlers that resolve the user stop there when that
    fails: the error of [user.FromRequest] is answered as it is, through
    the request's logger, and nothing else happens: the body is not
    decoded and the service is not called. *)
Theorem handlers_stop_without_user
  (T : app.Types) (e : app.Env T) (s : app.Server T) (r : http.Request)
  (u : user.User) (err : errs.Error) :
  app.userFromRequest e r = (u, Some err) ->
  app.handleMovieCreate e s r
  = ([app.FxErrorResponse (app.hlogFromRequest e r) err], Returned tt)
  /\ app.handleMovieUpdate e s r
     = ([app.FxErrorResponse (app.hlogFromRequest e r) err], Returned tt).
Proof.
  intros H. unfold app.handleMovieCreate, app.handleMovieUpdate.
  rewrite H. split; reflexivity.
Qed.

Lemma handlers_stop_without_user_witness :
  app.userFromRequest strictEnv http.NewRequest
  = (user.mkUser EmptyString,
     Some (errs.E errs.Unauthenticated (errors.New "no access token")))
  /\ app.handleMovieCreate strictEnv echoServer http.NewRequest
     = ([app.FxErrorResponse debugLogger
           (errs.E errs.Unauthenticated (errors.New "no access token"))],
        Returned tt)
  /\ app.handleMovieUpdate strictEnv echoServer http.NewRequest
     = ([app.FxErrorResponse debugLogger
           (errs.E errs.Unauthenticated (errors.New "no access token"))],
        Returned tt).
Proof.
  split; [reflexivity |].
  apply (handlers_stop_without_user sampleTypes strictEnv echoServer
           http.NewRequest (user.mkUser EmptyString)
           (errs.E errs.Unauthenticated (errors.New "no access token"))).
  reflexivity.
Defined.

(** X12.  The three handlers that read a body stop when [decoderErr]
    reports an error: that error is answered, the body is closed after the
    answer, and the service is not called. *)
Theorem handlers_stop_on_bad_body
  (T : app.Types) (e : app.Env T) (s : app.Server T) (r : http.Request)
  (err : errs.Error) :
  (forall u,
      app.userFromRequest e r = (u, None) ->
      app.decoderErr e (snd (app.decodeCreate e r)) = Some err ->
      app.handleMovieCreate e s r
      = ([app.FxDecode; app.FxErrorResponse (app.hlogFromRequest e r) err;
          app.FxClose], Returned tt))
  /\ (forall u,
         app.userFromRequest e r = (u, None) ->
         app.decoderErr e (snd (app.decodeUpdate e r)) = Some err ->
         app.handleMovieUpdate e s r
         = ([app.FxDecode; app.FxErrorResponse (app.hlogFromRequest e r) err;
             app.FxClose], Returned tt))
  /\ (app.decoderErr e (snd (app.decodeLogger e r)) = Some err ->
      app.handleLoggerUpdate e s r
      = ([app.FxDecode; app.FxErrorResponse (app.hlogFromRequest e r) err;
          app.FxClose], Returned tt)).
Proof.
  split; [| split].
  - intros u Hu Hd. unfold app.handleMovieCreate. rewrite Hu.
    destruct (app.decodeCreate e r) as [rb derr]. cbn [snd] in Hd.
    cbn. rewrite Hd. reflexivity.
  - intros u Hu Hd. unfold app.handleMovieUpdate. rewrite Hu.
    destruct (app.decodeUpdate e r) as [rb derr]. cbn [snd] in Hd.
    cbn. rewrite Hd. reflexivity.
  - intros Hd. unfold app.handleLoggerUpdate.
    destruct (app.decodeLogger e r) as [rb derr]. cbn [snd] in Hd.
    cbn. rewrite Hd. reflexivity.
Qed.

Lemma handlers_stop_on_bad_body_witness :
  app.userFromRequest openEnv bareRequest = (alice, None)
  /\ app.decoderErr openEnv (snd (app.decodeCreate openEnv bareRequest))
     = Some (errs.E errs.Invalid (errors.New "EOF"))
  /\ app.handleMovieCreate openEnv echoServer bareRequest
     = ([app.FxDecode;
         app.FxErrorResponse debugLogger
           (errs.E errs.Invalid (errors.New "EOF"));
         app.FxClose], Returned tt)
  /\ app.handleMovieUpdate openEnv echoServer bareRequest
     = ([app.FxDecode;
         app.FxErrorResponse debugLogger
           (errs.E errs.Invalid (errors.New "EOF"));
         app.FxClose], Returned tt)
  /\ app.handleLoggerUpdate openEnv echoServer bareRequest
     = ([app.FxDecode;
         app.FxErrorResponse debugLogger
           (errs.E errs.Invalid (errors.New "EOF"));
         app.FxClose], Returned tt).
Proof.
  destruct (handlers_stop_on_bad_body sampleTypes openEnv echoServer
              bareRequest (errs.E errs.Invalid (errors.New "EOF")))
    as (Hc & Hu & Hl).
  split; [reflexivity |]. split; [reflexivity |].
  split; [apply (Hc alice); reflexivity |].
  split; [apply (Hu alice); reflexivity |].
  apply Hl. reflexivity.
Defined.

(** X13.  The external ID of an update comes from the path, never from the
    body: two decoders whose results differ at most in the body's external
    ID give the same run of [handleMovieUpdate], whatever the service does
    with the request it is handed. *)
Theorem handleMovieUpdate_path_id_wins
  (T : app.Types) (e : app.Env T) (s : app.Server T) (r : http.Request)
  (d1 d2 : http.Request -> option (app.UpdateMovieRequest T) * error) :
  app.sameButExternalID (d1 r) (d2 r) ->
  app.handleMovieUpdate (app.withDecodeUpdate e d1) s r
  = app.handleMovieUpdate (app.withDecodeUpdate e d2) s r.
Proof.
  unfold app.sameButExternalID, app.handleMovieUpdate, app.withDecodeUpdate.
  cbn [app.userFromRequest app.hlogFromRequest app.muxVars app.decodeUpdate
       app.decoderErr app.encode].
  destruct (d1 r) as [[b1|] err1], (d2 r) as [[b2|] err2];
    cbn [fst snd]; intros [-> Hf]; try contradiction.
  - now rewrite Hf.
  - reflexivity.
Qed.

Lemma handleMovieUpdate_path_id_wins_witness :
  app.sameButExternalID
    (T:=sampleTypes)
    (Some (app.mkUpdateMovieRequest (T:=sampleTypes) "from-body" "title"),
     None)
    (Some (app.mkUpdateMovieRequest (T:=sampleTypes) "m-42" "title"), None)
  /\ app.handleMovieUpdate
       (app.withDecodeUpdate openEnv
          (fun _ => (Some (app.mkUpdateMovieRequest (T:=sampleTypes)
                             "from-body" "title"), None)))
       echoServer http.NewRequest
     = app.handleMovieUpdate
         (app.withDecodeUpdate openEnv
            (fun _ => (Some (app.mkUpdateMovieRequest (T:=sampleTypes)
                               "m-42" "title"), None)))
         echoServer http.NewRequest.
Proof.
  split; [split; reflexivity |].
  apply (handleMovieUpdate_path_id_wins sampleTypes openEnv echoServer
           http.NewRequest
           (fun _ => (Some (app.mkUpdateMovieRequest (T:=sampleTypes)
                              "from-body" "title"), None))
           (fun _ => (Some (app.mkUpdateMovieRequest (T:=sampleTypes)
                              "m-42" "title"), None))).
  split; reflexivity.
Defined.

(** X14.  [handleMovieUpdate] assigns through the body pointer without a
    nil check: when decoding leaves the pointer nil and [decoderErr] lets
    it pass, the handler panics with a nil dereference; the body is still
    closed, no service is called and no response is written. *)
Theorem handleMovieUpdate_nil_body_panics
  (T : app.Types) (e : app.Env T) (s : app.Server T) (r : http.Request)
  (u : user.User) (derr : error) :
  app.userFromRequest e r = (u, None) ->
  app.decodeUpdate e r = (None, derr) ->
  app.decoderErr e derr = None ->
  app.handleMovieUpdate e s r
  = ([app.FxDecode; app.FxClose], Panicked nilDereference).
Proof.
  intros Hu Hd He. unfold app.handleMovieUpdate.
  rewrite Hu, Hd. cbn. rewrite He. reflexivity.
Qed.

Lemma handleMovieUpdate_nil_body_panics_witness :
  app.userFromRequest nullBodyEnv http.NewRequest = (alice, None)
  /\ app.decodeUpdate nullBodyEnv http.NewRequest = (None, None)
  /\ app.decoderErr nullBodyEnv None = None
  /\ app.handleMovieUpdate nullBodyEnv echoServer http.NewRequest
     = ([app.FxDecode; app.FxClose], Panicked nilDereference).
Proof.
  split; [reflexivity |]. split; [reflexivity |]. split; [reflexivity |].
  apply (handleMovieUpdate_nil_body_panics sampleTypes nullBodyEnv echoServer
           http.NewRequest alice None); reflexivity.
Defined.

(** X15.  Every handler keeps the same discipline, whatever its
    collaborators answer: at most one error response, at most one service
    call, nothing encoded without a service call, the body closed exactly
    when it was decoded and as the last thing done, and an answer (an
    encoded response or an error response) whenever the handler returns. *)
Theorem handlers_orderly
  (T : app.Types) (e : app.Env T) (s : app.Server T) (r : http.Request) :
  app.orderly (app.handleMovieCreate e s r) = true
  /\ app.orderly (app.handleMovieUpdate e s r) = true
  /\ app.orderly (app.handleMovieDelete e s r) = true
  /\ app.orderly (app.handleFindMovieByID e s r) = true
  /\ app.orderly (app.handleFindAllMovies e s r) = true
  /\ app.orderly (app.handleLoggerRead e s r) = true
  /\ app.orderly (app.handleLoggerUpdate e s r) = true
  /\ app.orderly (app.handlePing e s r) = true.
Proof.
  unfold app.handleMovieCreate, app.handleMovieUpdate, app.handleMovieDelete,
    app.handleFindMovieByID, app.handleFindAllMovies, app.handleLoggerRead,
    app.handleLoggerUpdate, app.handlePing, app.encodeResponse, http.Context.
  repeat split; branch; reflexivity.
Qed.

(** X16.  The three look-up handlers pass a service error on unchanged:
    when the service returns an error, that error is the response, through
    the request's logger, and nothing is encoded. *)
Theorem lookup_handlers_pass_service_error
  (T : app.Types) (e : app.Env T) (s : app.Server T) (r : http.Request)
  (ctx : context.Context) (err : errs.Error) :
  http.Context (Some r) = Returned ctx ->
  (forall resp,
      app.Delete s ctx (app.mapIndex (app.muxVars e r) "extlID")
      = (resp, Some err) ->
      app.handleMovieDelete e s r
      = ([app.FxCall app.DeleteMovieService;
          app.FxErrorResponse (app.hlogFromRequest e r) err], Returned tt))
  /\ (forall resp,
         app.FindMovieByID s ctx (app.mapIndex (app.muxVars e r) "extlID")
         = (resp, Some err) ->
         app.handleFindMovieByID e s r
         = ([app.FxCall app.FindMovieByIDService;
             app.FxErrorResponse (app.hlogFromRequest e r) err], Returned tt))
  /\ (forall resp,
         app.FindAllMovies s ctx = (resp, Some err) ->
         app.handleFindAllMovies e s r
         = ([app.FxCall app.FindAllMoviesService;
             app.FxErrorResponse (app.hlogFromRequest e r) err], Returned tt)).
Proof.
  intros Hc.
  unfold app.handleMovieDelete, app.handleFindMovieByID,
    app.handleFindAllMovies.
  rewrite Hc. split; [| split]; intros resp H; cbn; rewrite H; reflexivity.
Qed.

Lemma lookup_handlers_pass_service_error_witness :
  http.Context (Some bareRequest) = Returned context.Background
  /\ app.FindMovieByID echoServer context.Background
       (app.mapIndex (app.muxVars openEnv bareRequest) "extlID")
     = ("m-42", Some (errs.E errs.NotFound (errors.New "no movie")))
  /\ app.handleFindMovieByID openEnv echoServer bareRequest
     = ([app.FxCall app.FindMovieByIDService;
         app.FxErrorResponse debugLogger
           (errs.E errs.NotFound (errors.New "no movie"))], Returned tt).
Proof.
  split; [reflexivity |]. split; [reflexivity |].
  destruct (lookup_handlers_pass_service_error sampleTypes openEnv echoServer
              bareRequest context.Background
              (errs.E errs.NotFound (errors.New "no movie")) eq_refl)
    as (_ & H & _).
  apply (H "m-42"). reflexivity.
Defined.

(** X17.  [handlePing] and [handleLoggerRead] have one way to fail: they
    answer with an error exactly when the encoder returns one, and that
    error is the encoder's, classified as Internal. *)
Theorem encode_only_failures
  (T : app.Types) (e : app.Env T) (s : app.Server T) (r : http.Request) :
  (app.errorResponses (fst (app.handleLoggerRead e s r)) = 0
   <-> snd (app.encode e _ (app.LoggerRead s)) = None)
  /\ (forall err,
         snd (app.encode e _ (app.LoggerRead s)) = Some err ->
         app.handleLoggerRead e s r
         = ([app.FxCall app.LoggerReadService;
             app.FxEncode (fst (app.encode e _ (app.LoggerRead s)));
             app.FxErrorResponse (app.hlogFromRequest e r)
               (errs.E errs.Internal err)], Returned tt)
         /\ errs.KindOf (errs.E errs.Internal err) = errs.Internal)
  /\ (forall ctx,
         http.Context (Some r) = Returned ctx ->
         (app.errorResponses (fst (app.handlePing e s r)) = 0
          <-> snd (app.encode e _
                     (app.Ping s ctx (app.hlogFromRequest e r))) = None)).
Proof.
  split; [| split].
  - unfold app.handleLoggerRead, app.encodeResponse.
    destruct (app.encode e _ (app.LoggerRead s)) as [w [err|]]; cbn;
      split; intros H; try reflexivity; discriminate H.
  - intros err H. unfold app.handleLoggerRead, app.encodeResponse.
    destruct (app.encode e _ (app.LoggerRead s)) as [w [err'|]];
      cbn in H; [| discriminate H].
    injection H as ->. split; reflexivity.
  - intros ctx Hc. unfold app.handlePing, app.encodeResponse. rewrite Hc.
    cbn [app.lift app.andThen app.effect].
    destruct (app.encode e _ (app.Ping s ctx (app.hlogFromRequest e r)))
      as [w [err|]]; cbn;
      split; intros H; try reflexivity; discriminate H.
Qed.
